(** * min-qiskit-cpp-example: command-line handling and outcome tabulation

    Shallow embedding of the three programs of the repository:

    - [BellC]   : src/bell_state_c.c, the C API Bell-state program;
    - [BellCpp] : the C++ Bell-state program (second unit of the same file);
    - [Ghz]     : src/ghz_20q.cpp, the N-qubit GHZ program.

    The vendor SDK (circuit construction, runtime service, sampler) is not
    part of the repository.  Its calls are recorded as events in the order
    the programs make them, and its answers are read from a [world] record
    that is an argument of each [main]. *)

From Stdlib Require Import ZArith QArith Lia Bool Ascii.
From Stdlib Require HexString.
From stdpp Require Import base list strings.

Local Open Scope Z_scope.

(** ** Machine integers *)

Module CInt.

Definition INT_MAX : Z := 2 ^ 31 - 1.
Definition INT_MIN : Z := - 2 ^ 31.
(** LP64 data model (Linux and macOS builds of the README). *)
Definition LONG_MAX : Z := 2 ^ 63 - 1.
Definition LONG_MIN : Z := - 2 ^ 63.

(** Conversion of an integer value to [int]: reduction modulo 2^32 into
    the signed range, as GCC, Clang and MSVC do. *)
Definition to_int (z : Z) : Z := (z + 2 ^ 31) mod 2 ^ 32 - 2 ^ 31.

(** Arithmetic of [unsigned long long] is modulo 2^64. *)
Definition wrap64 (z : Z) : Z := z mod 2 ^ 64.

Definition in_int (z : Z) : Prop := INT_MIN <= z <= INT_MAX.

End CInt.

(** ** The C library functions the programs call *)

Module CStdlib.
Import CInt.

Definition code (c : ascii) : Z := Z.of_N (N_of_ascii c).

(** [isspace] in the C locale: space, \t, \n, \v, \f, \r. *)
Definition isspace (c : ascii) : bool :=
  (code c =? 32) || ((9 <=? code c) && (code c <=? 13)).

(** Value of a character as a digit: 0-9, then letters of either case
    for 10-35. *)
Definition digit_val (c : ascii) : option Z :=
  let n := code c in
  if (48 <=? n) && (n <=? 57) then Some (n - 48)
  else if (97 <=? n) && (n <=? 122) then Some (n - 97 + 10)
  else if (65 <=? n) && (n <=? 90) then Some (n - 65 + 10)
  else None.

Definition digit_in (base : Z) (c : ascii) : option Z :=
  match digit_val c with
  | Some d => if d <? base then Some d else None
  | None => None
  end.

Fixpoint skip_space (s : string) : string :=
  match s with
  | String c s' => if isspace c then skip_space s' else s
  | EmptyString => s
  end.

(** The longest run of digits of [base] at the head of [s], accumulated
    most significant digit first. *)
Fixpoint digits (base : Z) (acc : Z) (s : string) : Z :=
  match s with
  | String c s' =>
      match digit_in base c with
      | Some d => digits base (acc * base + d) s'
      | None => acc
      end
  | EmptyString => acc
  end.

Definition strip_sign (s : string) : bool * string :=
  match s with
  | String c s' =>
      if code c =? 45 then (true, s')          (* '-' *)
      else if code c =? 43 then (false, s')    (* '+' *)
      else (false, s)
  | EmptyString => (false, s)
  end.

(** Base detection.  With base 0 a leading 0x / 0X selects base 16, another
    leading 0 selects base 8, anything else base 10; base 16 also accepts
    the 0x prefix.  A 0x that is not followed by a hexadecimal digit
    converts to 0 under both readings of the prefix, so the prefix is
    dropped whenever it is there. *)
Definition strip_prefix (base : Z) (s : string) : Z * string :=
  match s with
  | String c0 (String c1 s') =>
      if (code c0 =? 48) && ((code c1 =? 120) || (code c1 =? 88))
         && ((base =? 0) || (base =? 16))
      then (16, s')
      else if base =? 0 then (if code c0 =? 48 then 8 else 10, s)
      else (base, s)
  | String c0 EmptyString =>
      if base =? 0 then (if code c0 =? 48 then 8 else 10, s) else (base, s)
  | EmptyString => (if base =? 0 then 10 else base, s)
  end.

(** [strtol(nptr, NULL, base)]: the value only, since every caller passes
    a null end pointer.  A value outside [long] saturates. *)
Definition strtol (nptr : string) (base : Z) : Z :=
  let '(neg, s) := strip_sign (skip_space nptr) in
  let '(b, s) := strip_prefix base s in
  let acc := digits b 0 s in
  Z.max LONG_MIN (Z.min LONG_MAX (if neg then - acc else acc)).

(** [atoi(s)] is [(int) strtol(s, NULL, 10)]. *)
Definition atoi (s : string) : Z := to_int (strtol s 10).

End CStdlib.

(** ** Floating-point quotients

    A percentage is the [double] quotient of two integers.  The quotient is
    kept as the exact rational ([100.0 * count] is exact for a count below
    2^46, and the division rounds that exact quotient), and the IEEE 754
    results of dividing by zero are kept apart from it.  Signed zeros and the
    rounding to one decimal of the printed text are not represented. *)

Module Fp.

Inductive fval : Type :=
| Fin (q : Q)
| PosInf
| NegInf
| NaN.

(** [(double) num / (double) den]. *)
Definition fdiv (num den : Z) : fval :=
  if den =? 0 then
    if num =? 0 then NaN else if 0 <? num then PosInf else NegInf
  else Fin (Qred (inject_Z num / inject_Z den)).

(** [100.0 * count / denom]. *)
Definition percent (count denom : Z) : fval := fdiv (100 * count) denom.

(** [x > y] for a finite [y]; false on a NaN. *)
Definition fgt (x : fval) (y : Q) : bool :=
  match x with
  | Fin q => negb (Qle_bool q y)
  | PosInf => true
  | NegInf => false
  | NaN => false
  end.

End Fp.

(** ** Output and SDK events *)

Module Trace.
Import Fp.

(** One operand of a [printf] or of a [<<] chain. *)
Inductive piece : Type :=
| Txt (s : string)        (* text *)
| Num (z : Z)             (* an integer operand *)
| Dec1 (x : fval).        (* a double printed with one decimal *)

Inductive sdk_call : Type :=
| CircuitNew (qubits clbits : Z)
| GateH (q : Z)
| GateCX (control target : Z)
| Measure (q c : Z)
| MeasureAll
| ToQasm3
| ServiceNew
| BackendSearch
| BackendGet (name : string)
| BackendTarget
| Transpile
| SamplerRun (shots : Z)
| Sleep (seconds : Z)
| JobStatus
| JobResults.

Inductive event : Type :=
| Stdout (l : list piece)       (* one line on the output stream *)
| Stderr (l : list piece)       (* one line on the error stream *)
| Sdk (c : sdk_call).


Definition is_stderr (e : event) : bool :=
  match e with Stderr _ => true | _ => false end.

(** How a run ends: [main] returns, or the job is still queued or running
    when the recorded poll answers are used up. *)
Inductive outcome : Type :=
| Exit (code : Z)
| Waiting.

(** Programs: the events so far and either a value to continue with or
    the outcome of an early return. *)
Inductive step (A : Type) : Type :=
| Next (a : A)
| Halt (o : outcome).
Arguments Next {A} a.
Arguments Halt {A} o.

Definition prog (A : Type) : Type := list event * step A.

#[export] Instance prog_ret : MRet prog := fun A a => ([], Next a).

#[export] Instance prog_bind : MBind prog := fun A B k m =>
  match m with
  | (ev, Next a) => let '(ev', r) := k a in (ev ++ ev', r)
  | (ev, Halt o) => (ev, Halt o)
  end.

Definition emit (e : event) : prog unit := ([e], Next tt).
Definition out (l : list piece) : prog unit := emit (Stdout l).
Definition err (l : list piece) : prog unit := emit (Stderr l).
Definition call (c : sdk_call) : prog unit := emit (Sdk c).
Definition halt {A : Type} (o : outcome) : prog A := ([], Halt o).

(** [if (cond) { printf(msg); goto cleanup; }] followed by [return code]. *)
Definition fail_if (cond : bool) (msg : list piece) (code : Z) : prog unit :=
  if cond then out msg;; halt (Exit code) else mret tt.

Fixpoint for_each {A : Type} (body : A -> prog unit) (l : list A) : prog unit :=
  match l with
  | [] => mret tt
  | a :: l' => body a;; for_each body l'
  end.

Definition exec (m : prog Z) : list event * outcome :=
  match m with
  | (ev, Next code) => (ev, Exit code)
  | (ev, Halt o) => (ev, o)
  end.

(** [argv[i]].  A command line holds at least the name of the program;
    past the end of [argv] the model gives the empty text where C has a null
    pointer, so what is said of text printed from [argv[0]] assumes
    [argc >= 1]. *)
Definition arg (i : nat) (argv : list string) : string := nth i argv "".

Definition argc (argv : list string) : Z := Z.of_nat (length argv).

(** "  |<key>⟩: <count> (<percentage>%)" *)
Definition ket_line (key : string) (count : Z) (pct : fval) : list piece :=
  [Txt "  |"; Txt key; Txt "⟩: "; Num count; Txt " ("; Dec1 pct; Txt "%)"].

(** What the C++ programs get back from the SDK: the QASM3 text of the
    circuit and, unless [sampler.run] returned a null job, the counts of
    the "meas" register in the order the range-for visits them.  A map has
    each key once. *)
Record cpp_world : Type := {
  qasm3 : string;
  job_counts : option (list (string * Z))
}.

End Trace.

(** ** src/bell_state_c.c: Bell state through the C API *)

Module BellC.
Import CInt CStdlib Fp Trace.

(** Answers of the C API, one field per call whose result the program
    inspects. *)
Record world : Type := {
  service_res : Z;                    (* qkrt_service_new *)
  search_res : Z;                     (* qkrt_backend_search *)
  backends : list string;             (* names of the search results *)
  target_found : bool;                (* qkrt_get_backend_target != NULL *)
  transpile_code : Z;                 (* qk_transpile *)
  transpile_error : option string;    (* its error text, may be NULL *)
  job_run_res : Z;                    (* qkrt_sampler_job_run *)
  polls : list (Z * Z);               (* qkrt_job_status: (res, status) *)
  results_res : Z;                    (* qkrt_job_results *)
  samples : list (option string)      (* qkrt_samples_get_sample, may be NULL *)
}.

Definition config (argv : list string) : string * Z :=
  let backend_name := if 1 <? argc argv then arg 1 argv else "ibm_fez" in
  let num_shots := if 2 <? argc argv then atoi (arg 2 argv) else 1024 in
  (backend_name, num_shots).

(** Body of the counting loop for one sample.  [counts[value]++] is
    written with the wrap-around of [to_int]; in C the increment of a counter
    that holds INT_MAX is undefined, so the theorems about the counters of a
    sequence of samples bound its length by INT_MAX. *)
Definition count_sample (counts : list Z) (sample : option string) : list Z :=
  match sample with
  | Some s =>
      let value := to_int (strtol s 0) in
      if (0 <=? value) && (value <? 4)
      then <[Z.to_nat value := to_int (counts !!! Z.to_nat value + 1)]> counts
      else counts
  | None => counts
  end.

Definition tabulate (samples : list (option string)) : list Z :=
  fold_left count_sample samples [0; 0; 0; 0].

Definition display (counts : list Z) (num_samples : Z) : list event :=
  [ Stdout (ket_line "00" (counts !!! 0%nat) (percent (counts !!! 0%nat) num_samples));
    Stdout (ket_line "01" (counts !!! 1%nat) (percent (counts !!! 1%nat) num_samples));
    Stdout (ket_line "10" (counts !!! 2%nat) (percent (counts !!! 2%nat) num_samples));
    Stdout (ket_line "11" (counts !!! 3%nat) (percent (counts !!! 3%nat) num_samples)) ].

(** The do-while polling loop; returns the final status. *)
Fixpoint poll (ps : list (Z * Z)) : prog Z :=
  match ps with
  | [] => halt Waiting
  | (res, status) :: ps' =>
      out [Txt "  Polling (waiting 10 seconds)..."];;
      call (Sleep 10);;
      call JobStatus;;
      fail_if (negb (res =? 0))
        [Txt "ERROR: Status poll failed (code: "; Num res; Txt ")"] res;;
      out [Txt "  Status: "; Num status];;
      if (status =? 0) || (status =? 1) then poll ps' else mret status
  end.

Definition body (argv : list string) (w : world) : prog Z :=
  let '(backend_name, num_shots) := config argv in
  out [Txt "Bell State Circuit Example (C API)"];;
  out [Txt "==================================="];;
  out [Txt "Backend: "; Txt backend_name];;
  out [Txt "Shots: "; Num num_shots];; out [];;
  call (CircuitNew 2 2);;
  call (GateH 0);;
  call (GateCX 0 1);;
  call (Measure 0 0);;
  call (Measure 1 1);;
  out [Txt "Circuit created: H(0), CX(0,1), Measure"];; out [];;
  call ServiceNew;;
  let res := service_res w in
  fail_if (negb (res =? 0))
    [Txt "ERROR: Failed to create service (code: "; Num res; Txt ")"] res;;
  call BackendSearch;;
  let res := search_res w in
  fail_if (negb (res =? 0))
    [Txt "ERROR: Backend search failed (code: "; Num res; Txt ")"] res;;
  out [Txt "Available backends:"];;
  for_each (fun name => out [Txt "  - "; Txt name]) (backends w);;
  out [];;
  let selected_backend := find (String.eqb backend_name) (backends w) in
  fail_if (bool_decide (selected_backend = None))
    [Txt "ERROR: Backend '"; Txt backend_name; Txt "' not found"] res;;
  out [Txt "Using backend: "; Txt (default "" selected_backend)];;
  call BackendTarget;;
  fail_if (negb (target_found w))
    [Txt "ERROR: Failed to get backend target"] res;;
  call Transpile;;
  fail_if (negb (transpile_code w =? 0))
    [Txt "ERROR: Transpilation failed: ";
     Txt (default "unknown error" (transpile_error w))] res;;
  out [Txt "Circuit transpiled successfully"];;
  call (SamplerRun num_shots);;
  let res := job_run_res w in
  fail_if (negb (res =? 0))
    [Txt "ERROR: Job submission failed (code: "; Num res; Txt ")"] res;;
  out [Txt "Job submitted! Waiting for results..."];;
  status ← poll (polls w);
  out [];; out [Txt "Job completed with status: "; Num status];;
  call JobResults;;
  let res := results_res w in
  fail_if (negb (res =? 0))
    [Txt "ERROR: Failed to get results (code: "; Num res; Txt ")"] res;;
  out [];; out [Txt "Measurement Results:"];; out [Txt "-------------------"];;
  let num_samples := Z.of_nat (length (samples w)) in
  out [Txt "Total shots: "; Num num_samples];; out [];;
  let counts := tabulate (samples w) in
  for_each emit (display counts num_samples);;
  out [];;
  out [Txt "Expected: ~50% |00⟩ and ~50% |11⟩ (Bell state entanglement)"];;
  out [Txt "(|01⟩ and |10⟩ indicate noise/errors)"];;
  mret res.

Definition main (argv : list string) (w : world) : list event * outcome :=
  exec (body argv w).

End BellC.


(** ** src/bell_state_c.c, second unit: Bell state through the C++ interface *)

Module BellCpp.
Import CInt CStdlib Fp Trace.

Definition config (argv : list string) : string * Z :=
  let backend_name := if 1 <? argc argv then arg 1 argv else "ibm_torino" in
  let num_shots := if 2 <? argc argv then atoi (arg 2 argv) else 1024 in
  (backend_name, num_shots).

(** Body of the range-for over the counts. *)
Definition print_count (num_shots : Z) (c : string * Z) : prog unit :=
  let percentage := percent (snd c) num_shots in
  out (ket_line (fst c) (snd c) percentage).

Definition body (argv : list string) (w : cpp_world) : prog Z :=
  let '(backend_name, num_shots) := config argv in
  out [Txt "Bell State Circuit Example"];;
  out [Txt "=========================="];;
  out [Txt "Backend: "; Txt backend_name];;
  out [Txt "Shots: "; Num num_shots];; out [];;
  call (CircuitNew 2 2);;
  call (GateH 0);;
  call (GateCX 0 1);;
  call MeasureAll;;
  out [Txt "Circuit (QASM3):"];;
  call ToQasm3;;
  out [Txt (qasm3 w)];;
  call ServiceNew;;
  call (BackendGet backend_name);;
  call Transpile;;
  call (SamplerRun num_shots);;
  match job_counts w with
  | None => err [Txt "Error: Failed to submit job"];; mret (-1)
  | Some counts =>
      out [Txt "Job submitted. Waiting for results..."];;
      call JobResults;;
      out [];; out [Txt "Measurement Results:"];; out [Txt "-------------------"];;
      for_each (print_count num_shots) counts;;
      out [];;
      out [Txt "Expected: ~50% |00⟩ and ~50% |11⟩ (Bell state entanglement)"];;
      mret 0
  end.

Definition main (argv : list string) (w : cpp_world) : list event * outcome :=
  exec (body argv w).

End BellCpp.

(** ** src/ghz_20q.cpp: N-qubit GHZ state *)

Module Ghz.
Import CInt CStdlib Fp Trace.

Definition print_usage (program_name : string) : prog unit :=
  err [Txt "Usage: "; Txt program_name; Txt " <num_qubits> <backend> [shots]"];;
  err [];;
  err [Txt "Arguments:"];;
  err [Txt "  num_qubits  Number of qubits in the GHZ state (2-127)"];;
  err [Txt "  backend     IBM Quantum backend name (e.g., ibm_fez, ibm_torino)"];;
  err [Txt "  shots       Number of shots (default: 1024)"];;
  err [];;
  err [Txt "Examples:"];;
  err [Txt "  "; Txt program_name; Txt " 20 ibm_fez"];;
  err [Txt "  "; Txt program_name; Txt " 50 ibm_torino 2048"].

Record config : Type := {
  num_qubits : Z;
  backend_name : string;
  num_shots : Z
}.

(** Lines 48-62 of [main]: the argument count, the three conversions and
    the range check on [num_qubits]. *)
Definition parse (argv : list string) : prog config :=
  (if argc argv <? 3 then print_usage (arg 0 argv);; halt (Exit 1) else mret tt);;
  let num_qubits := atoi (arg 1 argv) in
  let backend_name := arg 2 argv in
  let num_shots := if 3 <? argc argv then atoi (arg 3 argv) else 1024 in
  (if (num_qubits <? 2) || (127 <? num_qubits)
   then err [Txt "Error: num_qubits must be between 2 and 127"];; halt (Exit 1)
   else mret tt);;
  mret {| num_qubits := num_qubits;
          backend_name := backend_name;
          num_shots := num_shots |}.

(** [std::string(n, c)] *)
Fixpoint fill (n : nat) (c : ascii) : string :=
  match n with
  | O => EmptyString
  | Datatypes.S n' => String c (fill n' c)
  end.

Record tally : Type := {
  count_all_zeros : Z;
  count_all_ones : Z;
  count_other : Z
}.

(** "  <label><count> (<percentage>%)" *)
Definition bucket_line (label : string) (count : Z) (pct : fval) : list piece :=
  [Txt label; Num count; Txt " ("; Dec1 pct; Txt "%)"].

Section Platform.

(** [x << n] on [unsigned long long] is undefined for [n >= 64].  Whatever a
    platform computes there is an argument of the model; the result is a
    64-bit value in every case. *)
Variable shl_overflow : Z -> Z -> Z.

Definition shl_ull (x n : Z) : Z :=
  if (0 <=? n) && (n <? 64) then wrap64 (Z.shiftl x n)
  else wrap64 (shl_overflow x n).

(** [(1ULL << num_qubits) - 1] *)
Definition hex_ones_value (num_qubits : Z) : Z :=
  wrap64 (shl_ull 1 num_qubits - 1).

(** ["0x" << std::hex << value]: the prefix and the lowercase hexadecimal
    digits without leading zeros, a single 0 for zero. *)
Definition hex_ones_str (num_qubits : Z) : string :=
  HexString.of_N (Z.to_N (hex_ones_value num_qubits)).

Definition all_zeros (num_qubits : Z) : string := fill (Z.to_nat num_qubits) "0".
Definition all_ones (num_qubits : Z) : string := fill (Z.to_nat num_qubits) "1".

Definition is_zeros_key (num_qubits : Z) (key : string) : bool :=
  String.eqb key (all_zeros num_qubits) || String.eqb key "0x0" || String.eqb key "0".

Definition is_ones_key (num_qubits : Z) (key : string) : bool :=
  String.eqb key (all_ones num_qubits) || String.eqb key (hex_ones_str num_qubits).

(** The if / else-if / else of the loop body. *)
Definition classify (num_qubits : Z) (t : tally) (c : string * Z) : tally :=
  if is_zeros_key num_qubits (fst c) then
    {| count_all_zeros := to_int (snd c);
       count_all_ones := count_all_ones t;
       count_other := count_other t |}
  else if is_ones_key num_qubits (fst c) then
    {| count_all_zeros := count_all_zeros t;
       count_all_ones := to_int (snd c);
       count_other := count_other t |}
  else
    {| count_all_zeros := count_all_zeros t;
       count_all_ones := count_all_ones t;
       count_other := to_int (count_other t + snd c) |}.

(** The "top results" part of the loop body. *)
Definition print_top (num_shots : Z) (c : string * Z) : prog unit :=
  let percentage := percent (snd c) num_shots in
  if fgt percentage 1 then out (ket_line (fst c) (snd c) percentage)
  else mret tt.

(** The range-for over the counts: the tally is the loop-carried state. *)
Fixpoint loop (num_qubits num_shots : Z) (counts : list (string * Z)) (t : tally)
  : prog tally :=
  match counts with
  | [] => mret t
  | c :: rest =>
      let t' := classify num_qubits t c in
      print_top num_shots c;;
      loop num_qubits num_shots rest t'
  end.

Definition summary (num_shots : Z) (t : tally) : prog unit :=
  out [];; out [Txt "Summary:"];;
  out (bucket_line "  All 0s: " (count_all_zeros t)
         (percent (count_all_zeros t) num_shots));;
  out (bucket_line "  All 1s: " (count_all_ones t)
         (percent (count_all_ones t) num_shots));;
  out (bucket_line "  Other (noise): " (count_other t)
         (percent (count_other t) num_shots)).

Definition report (cfg : config) (counts : list (string * Z)) : prog unit :=
  out [];; out [Txt "Measurement Results:"];; out [Txt "-------------------"];;
  t ← loop (num_qubits cfg) (num_shots cfg) counts
        {| count_all_zeros := 0; count_all_ones := 0; count_other := 0 |};
  summary (num_shots cfg) t.

Definition build_circuit (num_qubits : Z) : prog unit :=
  call (CircuitNew num_qubits num_qubits);;
  call (GateH 0);;
  for_each (fun i => call (GateCX 0 i)) (seqZ 1 (num_qubits - 1));;
  call MeasureAll.

Definition body (argv : list string) (w : cpp_world) : prog Z :=
  cfg ← parse argv;
  out [Num (num_qubits cfg); Txt "-Qubit GHZ State Example"];;
  out [Txt "=========================="];;
  out [Txt "Backend: "; Txt (backend_name cfg)];;
  out [Txt "Shots: "; Num (num_shots cfg)];;
  out [Txt "Qubits: "; Num (num_qubits cfg)];; out [];;
  build_circuit (num_qubits cfg);;
  out ([Txt "Circuit: H(0)"]
       ++ flat_map (fun i => [Txt ", CX(0,"; Num i; Txt ")"])
            (seqZ 1 (num_qubits cfg - 1))
       ++ [Txt ", Measure"]);;
  out [];;
  (if num_qubits cfg <=? 10
   then out [Txt "Circuit (QASM3):"];; call ToQasm3;; out [Txt (qasm3 w)]
   else out [Txt "(QASM3 output suppressed for circuits > 10 qubits)"];; out []);;
  call ServiceNew;;
  call (BackendGet (backend_name cfg));;
  call Transpile;;
  call (SamplerRun (num_shots cfg));;
  match job_counts w with
  | None => err [Txt "Error: Failed to submit job"];; mret (-1)
  | Some counts =>
      out [Txt "Job submitted. Waiting for results..."];;
      call JobResults;;
      report cfg counts;;
      out [];;
      out [Txt "Expected: ~50% all-0s and ~50% all-1s"];;
      out [Txt "(Other results indicate decoherence/noise)"];;
      mret 0
  end.

Definition main (argv : list string) (w : cpp_world) : list event * outcome :=
  exec (body argv w).

End Platform.

(** The shift of x86-64 and AArch64, which use the count modulo 64. *)
Definition shl_masked (x n : Z) : Z := Z.shiftl x (n mod 64).

End Ghz.


(** ** Vocabulary of the statements

    What the properties below speak of, in terms of the programs above:
    totals of a histogram, the three buckets, the lines of a report. *)

Module Obs.
Import CInt CStdlib Fp Trace.

Definition sumZ (l : list Z) : Z := foldr Z.add 0 l.

(** The test the C program applies to a sample before counting it. *)
Definition valid_sample (sample : option string) : bool :=
  match sample with
  | Some s => (0 <=? to_int (strtol s 0)) && (to_int (strtol s 0) <? 4)
  | None => false
  end.

Definition zero_tally : Ghz.tally :=
  {| Ghz.count_all_zeros := 0; Ghz.count_all_ones := 0; Ghz.count_other := 0 |}.

(** The tally the GHZ loop ends with. *)
Definition tally_of (shl : Z -> Z -> Z) (num_qubits : Z)
    (counts : list (string * Z)) : Ghz.tally :=
  fold_left (Ghz.classify shl num_qubits) counts zero_tally.

Definition bucket_total (t : Ghz.tally) : Z :=
  Ghz.count_all_zeros t + Ghz.count_all_ones t + Ghz.count_other t.

Definition histogram_total (counts : list (string * Z)) : Z :=
  sumZ (map snd counts).

(** Counts of the keys that a predicate selects, in iteration order. *)
Definition counts_where (p : string -> bool) (counts : list (string * Z)) : list Z :=
  map snd (filter (fun c => p (fst c) = true) counts).

(** Which branch of the GHZ loop body a key takes. *)
Definition to_zeros (num_qubits : Z) (key : string) : bool :=
  Ghz.is_zeros_key num_qubits key.

Definition to_ones (shl : Z -> Z -> Z) (num_qubits : Z) (key : string) : bool :=
  negb (Ghz.is_zeros_key num_qubits key) && Ghz.is_ones_key shl num_qubits key.

Definition to_other (shl : Z -> Z -> Z) (num_qubits : Z) (key : string) : bool :=
  negb (Ghz.is_zeros_key num_qubits key)
  && negb (Ghz.is_ones_key shl num_qubits key).

(** The lowercase hexadecimal key of an outcome value. *)
Definition hex_key (v : Z) : string := HexString.of_N (Z.to_N v).

(** The detail line of one outcome, with the percentage taken against
    [denom]. *)
Definition detail_line (denom : Z) (c : string * Z) : event :=
  Stdout (ket_line (fst c) (snd c) (percent (snd c) denom)).

(** Detail lines of the outcomes whose percentage exceeds 1. *)
Definition top_lines (num_shots : Z) (counts : list (string * Z)) : list event :=
  map (detail_line num_shots)
    (filter (fun c => fgt (percent (snd c) num_shots) 1 = true) counts).

(** The three summary buckets, each with its percentage of [num_shots]. *)
Definition summary_lines (num_shots : Z) (t : Ghz.tally) : list event :=
  [ Stdout (Ghz.bucket_line "  All 0s: " (Ghz.count_all_zeros t)
              (percent (Ghz.count_all_zeros t) num_shots));
    Stdout (Ghz.bucket_line "  All 1s: " (Ghz.count_all_ones t)
              (percent (Ghz.count_all_ones t) num_shots));
    Stdout (Ghz.bucket_line "  Other (noise): " (Ghz.count_other t)
              (percent (Ghz.count_other t) num_shots)) ].

Definition report_head : list event :=
  [Stdout []; Stdout [Txt "Measurement Results:"]; Stdout [Txt "-------------------"]].

Definition summary_head : list event := [Stdout []; Stdout [Txt "Summary:"]].

(** Number of samples that pass the C program's test. *)
Definition count_valid (samples : list (option string)) : Z :=
  Z.of_nat (length (filter (fun s => valid_sample s = true) samples)).

(** The lines between the header and the trailer of the GHZ report. *)
Definition ghz_report_lines (shl : Z -> Z -> Z) (cfg : Ghz.config)
    (counts : list (string * Z)) : list event :=
  report_head
    ++ top_lines (Ghz.num_shots cfg) counts
    ++ summary_head
    ++ summary_lines (Ghz.num_shots cfg)
         (tally_of shl (Ghz.num_qubits cfg) counts).


Fixpoint only_digits (s : string) : bool :=
  match s with
  | String c s' =>
      match digit_in 10 c with
      | Some _ => only_digits s'
      | None => false
      end
  | EmptyString => true
  end.

(** A decimal numeral: an optional sign and then digits only, at least
    one. *)
Definition numeric (s : string) : bool :=
  match snd (strip_sign s) with
  | EmptyString => false
  | String c s' => only_digits (String c s')
  end.

(** What the GHZ program emits before and after the report when the command
    line is valid and the job returned counts. *)
Definition ghz_circuit_events (nq : Z) : list event :=
  Sdk (CircuitNew nq nq) :: Sdk (GateH 0)
    :: map (fun i => Sdk (GateCX 0 i)) (seqZ 1 (nq - 1)) ++ [Sdk MeasureAll].

Definition ghz_preamble (cfg : Ghz.config) (w : cpp_world) : list event :=
  [ Stdout [Num (Ghz.num_qubits cfg); Txt "-Qubit GHZ State Example"];
    Stdout [Txt "=========================="];
    Stdout [Txt "Backend: "; Txt (Ghz.backend_name cfg)];
    Stdout [Txt "Shots: "; Num (Ghz.num_shots cfg)];
    Stdout [Txt "Qubits: "; Num (Ghz.num_qubits cfg)];
    Stdout [] ]
  ++ ghz_circuit_events (Ghz.num_qubits cfg)
  ++ [ Stdout ([Txt "Circuit: H(0)"]
               ++ flat_map (fun i => [Txt ", CX(0,"; Num i; Txt ")"])
                    (seqZ 1 (Ghz.num_qubits cfg - 1))
               ++ [Txt ", Measure"]);
       Stdout [] ]
  ++ (if Ghz.num_qubits cfg <=? 10
      then [ Stdout [Txt "Circuit (QASM3):"]; Sdk ToQasm3; Stdout [Txt (qasm3 w)] ]
      else [ Stdout [Txt "(QASM3 output suppressed for circuits > 10 qubits)"];
             Stdout [] ])
  ++ [ Sdk ServiceNew; Sdk (BackendGet (Ghz.backend_name cfg)); Sdk Transpile;
       Sdk (SamplerRun (Ghz.num_shots cfg));
       Stdout [Txt "Job submitted. Waiting for results..."];
       Sdk JobResults ].

Definition ghz_trailer : list event :=
  [ Stdout [];
    Stdout [Txt "Expected: ~50% all-0s and ~50% all-1s"];
    Stdout [Txt "(Other results indicate decoherence/noise)"] ].

(** The same for the C++ Bell program. *)
Definition bell_cpp_preamble (backend_name : string) (num_shots : Z)
    (w : cpp_world) : list event :=
  [ Stdout [Txt "Bell State Circuit Example"];
    Stdout [Txt "=========================="];
    Stdout [Txt "Backend: "; Txt backend_name];
    Stdout [Txt "Shots: "; Num num_shots];
    Stdout [];
    Sdk (CircuitNew 2 2); Sdk (GateH 0); Sdk (GateCX 0 1); Sdk MeasureAll;
    Stdout [Txt "Circuit (QASM3):"];
    Sdk ToQasm3;
    Stdout [Txt (qasm3 w)];
    Sdk ServiceNew; Sdk (BackendGet backend_name); Sdk Transpile;
    Sdk (SamplerRun num_shots);
    Stdout [Txt "Job submitted. Waiting for results..."];
    Sdk JobResults;
    Stdout []; Stdout [Txt "Measurement Results:"]; Stdout [Txt "-------------------"] ].

Definition bell_cpp_trailer : list event :=
  [ Stdout [];
    Stdout [Txt "Expected: ~50% |00⟩ and ~50% |11⟩ (Bell state entanglement)"] ].

(** Recognises the shape of a detail line: seven operands, the first being
    the text that opens the ket. *)
Definition is_detail_line (e : event) : bool :=
  match e with
  | Stdout (Txt open :: rest) => String.eqb open "  |" && Nat.eqb (length rest) 6
  | _ => false
  end.

(** A report line that shows a count together with its percentage of
    [denom]: a detail line or a summary bucket. *)
Definition shows_percent_of (denom : Z) (e : event) : Prop :=
  exists label count,
    e = Stdout (ket_line label count (percent count denom))
    \/ e = Stdout (Ghz.bucket_line label count (percent count denom)).

(** A program ran to its last statement, with these events and result. *)
Definition completes {A : Type} (m : prog A) (evs : list event) (a : A) : Prop :=
  m = (evs, Next a).

(** [part] occurs in [evs] as a block of consecutive events. *)
Definition segment (part evs : list event) : Prop :=
  exists pre post, evs = pre ++ part ++ post.

(** Worlds for the concrete runs below. *)
Definition c_world (samples : list (option string)) : BellC.world :=
  {| BellC.service_res := 0; BellC.search_res := 0;
     BellC.backends := ["ibm_torino"; "ibm_fez"];
     BellC.target_found := true;
     BellC.transpile_code := 0; BellC.transpile_error := None;
     BellC.job_run_res := 0; BellC.polls := [(0, 0); (0, 1); (0, 2)];
     BellC.results_res := 0; BellC.samples := samples |}.

Definition cpp_counts (counts : list (string * Z)) : cpp_world :=
  {| qasm3 := "OPENQASM 3.0;"; job_counts := Some counts |}.

End Obs.

(** ** Vocabulary of the statements about whole runs

    Tests on single events, the answers of the status query, and the events
    the C++ programs emit up to the submission of the job. *)

Module Runs.
Import CInt CStdlib Fp Trace Obs.

(** A text at whose head the conversion of a decimal number stops: it is
    empty or begins with a character that is not a decimal digit. *)
Definition no_digit_at_head (t : string) : Prop :=
  match t with
  | String c _ => digit_in 10 c = None
  | EmptyString => True
  end.

(** Lines 159-162 of bell_state_c.c: the index of the counter that a sample
    is added to, if it is added to one. *)
Definition sample_value (sample : option string) : option Z :=
  match sample with
  | Some s =>
      let value := to_int (strtol s 0) in
      if (0 <=? value) && (value <? 4) then Some value else None
  | None => None
  end.

(** Number of samples that are added to counter [v]. *)
Definition occurrences (v : Z) (samples : list (option string)) : Z :=
  Z.of_nat (length (filter (fun s => sample_value s = Some v) samples)).

(** An answer of [qkrt_job_status] after which the do-while loop goes round
    again (lines 131 and 136): the query succeeded and the status is 0
    (queued) or 1 (running). *)
Definition pending (p : Z * Z) : bool :=
  (fst p =? 0) && ((snd p =? 0) || (snd p =? 1)).

Definition final (p : Z * Z) : bool := negb (pending p).

(** Number of passes through the body of the do-while loop. *)
Fixpoint rounds (ps : list (Z * Z)) : nat :=
  match ps with
  | [] => O
  | p :: ps' => Datatypes.S (if pending p then rounds ps' else O)
  end.

(** Lines 128-135: one pass through the loop body whose query succeeded. *)
Definition poll_round (p : Z * Z) : list event :=
  [ Stdout [Txt "  Polling (waiting 10 seconds)..."];
    Sdk (Sleep 10);
    Sdk JobStatus;
    Stdout [Txt "  Status: "; Num (snd p)] ].

(** Lines 128-133: the pass whose query failed with [res]. *)
Definition poll_failure (res : Z) : list event :=
  [ Stdout [Txt "  Polling (waiting 10 seconds)..."];
    Sdk (Sleep 10);
    Sdk JobStatus;
    Stdout [Txt "ERROR: Status poll failed (code: "; Num res; Txt ")"] ].

Definition is_job_submission (e : event) : bool :=
  match e with Sdk (SamplerRun _) => true | _ => false end.

Definition is_wait (e : event) : bool :=
  match e with Sdk (Sleep _) | Sdk JobStatus => true | _ => false end.

Definition is_qasm_call (e : event) : bool :=
  match e with Sdk ToQasm3 => true | _ => false end.

(** Control and target of a CNOT applied to the circuit. *)
Definition cx_gate (e : event) : option (Z * Z) :=
  match e with Sdk (GateCX c t) => Some (c, t) | _ => None end.

(** Lines 79-90 of bell_state_c.c: the search loop found the requested
    name among the backends. *)
Definition backend_known (argv : list string) (w : BellC.world) : bool :=
  bool_decide (find (String.eqb (fst (BellC.config argv))) (BellC.backends w) <> None).

(** Every test before [qkrt_sampler_job_run] (line 117) passed. *)
Definition ready_to_submit (argv : list string) (w : BellC.world) : bool :=
  (BellC.service_res w =? 0) && (BellC.search_res w =? 0)
  && backend_known argv w && BellC.target_found w
  && (BellC.transpile_code w =? 0).

(** A C API in which the first call fails with [code]. *)
Definition c_world_no_service (code : Z) : BellC.world :=
  {| BellC.service_res := code; BellC.search_res := 0;
     BellC.backends := [];
     BellC.target_found := false;
     BellC.transpile_code := 0; BellC.transpile_error := None;
     BellC.job_run_res := 0; BellC.polls := [];
     BellC.results_res := 0; BellC.samples := [] |}.

(** Lines 64-114 of ghz_20q.cpp: what the GHZ program emits from the banner
    to [sampler.run]. *)
Definition ghz_setup (cfg : Ghz.config) (w : cpp_world) : list event :=
  [ Stdout [Num (Ghz.num_qubits cfg); Txt "-Qubit GHZ State Example"];
    Stdout [Txt "=========================="];
    Stdout [Txt "Backend: "; Txt (Ghz.backend_name cfg)];
    Stdout [Txt "Shots: "; Num (Ghz.num_shots cfg)];
    Stdout [Txt "Qubits: "; Num (Ghz.num_qubits cfg)];
    Stdout [] ]
  ++ ghz_circuit_events (Ghz.num_qubits cfg)
  ++ [ Stdout ([Txt "Circuit: H(0)"]
               ++ flat_map (fun i => [Txt ", CX(0,"; Num i; Txt ")"])
                    (seqZ 1 (Ghz.num_qubits cfg - 1))
               ++ [Txt ", Measure"]);
       Stdout [] ]
  ++ (if Ghz.num_qubits cfg <=? 10
      then [ Stdout [Txt "Circuit (QASM3):"]; Sdk ToQasm3; Stdout [Txt (qasm3 w)] ]
      else [ Stdout [Txt "(QASM3 output suppressed for circuits > 10 qubits)"];
             Stdout [] ])
  ++ [ Sdk ServiceNew; Sdk (BackendGet (Ghz.backend_name cfg)); Sdk Transpile;
       Sdk (SamplerRun (Ghz.num_shots cfg)) ].

(** The same for the C++ Bell program (lines 238-271 of bell_state_c.c). *)
Definition bell_cpp_setup (backend_name : string) (num_shots : Z)
    (w : cpp_world) : list event :=
  [ Stdout [Txt "Bell State Circuit Example"];
    Stdout [Txt "=========================="];
    Stdout [Txt "Backend: "; Txt backend_name];
    Stdout [Txt "Shots: "; Num num_shots];
    Stdout [];
    Sdk (CircuitNew 2 2); Sdk (GateH 0); Sdk (GateCX 0 1); Sdk MeasureAll;
    Stdout [Txt "Circuit (QASM3):"];
    Sdk ToQasm3;
    Stdout [Txt (qasm3 w)];
    Sdk ServiceNew; Sdk (BackendGet backend_name); Sdk Transpile;
    Sdk (SamplerRun num_shots) ].

(** A run of a C++ program in which [sampler.run] returned a null job. *)
Definition cpp_no_job : cpp_world :=
  {| qasm3 := "OPENQASM 3.0;"; job_counts := None |}.

(** A piece that is a percentage, and a line that carries one. *)
Definition is_percentage (p : piece) : bool :=
  match p with Dec1 _ => true | _ => false end.

Definition has_percent (e : event) : bool :=
  match e with
  | Stdout l | Stderr l => existsb is_percentage l
  | Sdk _ => false
  end.

(** A line of at most three operands none of which is a percentage: the
    shape of every line of the C program outside its four outcome lines. *)
Definition quiet (l : list piece) : bool :=
  forallb (fun x => negb (is_percentage x)) l && (length l <=? 3)%nat.

(** The shape of a summary bucket of the GHZ program: label, count, and the
    percentage between parentheses. *)
Definition is_bucket_line (e : event) : bool :=
  match e with
  | Stdout [Txt _; Num _; Txt _; Dec1 _; Txt _] => true
  | _ => false
  end.

(** A line of the C program that reports a failure. *)
Definition is_error_line (e : event) : bool :=
  match e with
  | Stdout (Txt t :: _) => String.prefix "ERROR" t
  | _ => false
  end.

(** Lines 148-176 of bell_state_c.c: everything the C program prints once
    the results are fetched, from the four counters and the number of
    samples. *)
Definition c_report (counts : list Z) (num_samples : Z) : list event :=
  [ Stdout []; Stdout [Txt "Measurement Results:"];
    Stdout [Txt "-------------------"];
    Stdout [Txt "Total shots: "; Num num_samples];
    Stdout [] ]
  ++ BellC.display counts num_samples
  ++ [ Stdout [];
       Stdout [Txt "Expected: ~50% |00⟩ and ~50% |11⟩ (Bell state entanglement)"];
       Stdout [Txt "(|01⟩ and |10⟩ indicate noise/errors)"] ].

End Runs.

(** * Properties *)

Import CInt CStdlib Fp Trace Obs.
Import Runs.

(** ** The program monad *)

Lemma bind_emit {B : Type} (e : event) (k : unit -> prog B) :
  (emit e ≫= k) = (e :: fst (k tt), snd (k tt)).
Proof. unfold emit, mbind, prog_bind. destruct (k tt); reflexivity. Qed.

Lemma bind_ret {A B : Type} (a : A) (k : A -> prog B) :
  (mret a ≫= k) = k a.
Proof. unfold mret, prog_ret, mbind, prog_bind. destruct (k a); reflexivity. Qed.

Lemma bind_next {A B : Type} (ev : list event) (a : A) (k : A -> prog B) :
  ((ev, Next a) ≫= k) = (ev ++ fst (k a), snd (k a)).
Proof. unfold mbind, prog_bind. destruct (k a); reflexivity. Qed.

Lemma bind_halt {A B : Type} (ev : list event) (o : outcome) (k : A -> prog B) :
  ((ev, Halt o) ≫= k) = (ev, Halt o).
Proof. reflexivity. Qed.

Lemma for_each_emit (l : list event) : for_each emit l = (l, Next tt).
Proof.
  induction l as [|e l IH]; [reflexivity|].
  cbn [for_each]. rewrite bind_emit, IH. reflexivity.
Qed.

(** ** The GHZ loop and report *)

Lemma top_lines_cons (num_shots : Z) (c : string * Z) (counts : list (string * Z)) :
  top_lines num_shots (c :: counts) =
  (if fgt (percent (snd c) num_shots) 1 then [detail_line num_shots c] else [])
  ++ top_lines num_shots counts.
Proof.
  unfold top_lines. rewrite filter_cons.
  destruct (fgt (percent (snd c) num_shots) 1) eqn:E.
  - rewrite decide_True by reflexivity. reflexivity.
  - rewrite decide_False by discriminate. reflexivity.
Qed.

(** The loop prints the top lines and folds [classify] over the counts. *)
Lemma loop_spec (shl : Z -> Z -> Z) (nq shots : Z) (counts : list (string * Z)) :
  forall t : Ghz.tally,
    Ghz.loop shl nq shots counts t =
    (top_lines shots counts, Next (fold_left (Ghz.classify shl nq) counts t)).
Proof.
  induction counts as [|c rest IH]; intros t; [reflexivity|].
  cbn [Ghz.loop fold_left]. rewrite top_lines_cons.
  unfold Ghz.print_top, out.
  destruct (fgt (percent (snd c) shots) 1).
  - rewrite bind_emit, IH. reflexivity.
  - rewrite bind_ret, IH. reflexivity.
Qed.

Lemma summary_spec (shots : Z) (t : Ghz.tally) :
  Ghz.summary shots t = (summary_head ++ summary_lines shots t, Next tt).
Proof. reflexivity. Qed.

Lemma report_spec (shl : Z -> Z -> Z) (cfg : Ghz.config) (counts : list (string * Z)) :
  Ghz.report shl cfg counts = (ghz_report_lines shl cfg counts, Next tt).
Proof.
  unfold Ghz.report, out. rewrite !bind_emit, loop_spec, bind_next, summary_spec.
  reflexivity.
Qed.

(** ** The all-ones reference key *)

Lemma wrap64_range (z : Z) : 0 <= wrap64 z < 2 ^ 64.
Proof. unfold wrap64. apply Z.mod_pos_bound. lia. Qed.

Lemma wrap64_small (z : Z) : 0 <= z < 2 ^ 64 -> wrap64 z = z.
Proof. intros H. unfold wrap64. apply Z.mod_small. exact H. Qed.

Lemma pow2_le_63 (n : Z) : 0 <= n <= 63 -> 1 <= 2 ^ n <= 2 ^ 63.
Proof.
  intros H. split.
  - apply (Z.pow_le_mono_r 2 0 n); lia.
  - apply Z.pow_le_mono_r; lia.
Qed.

(** Up to 63 qubits the shift is defined and the key is exact. *)
Lemma hex_ones_value_exact (shl : Z -> Z -> Z) (n : Z) :
  0 <= n <= 63 -> Ghz.hex_ones_value shl n = 2 ^ n - 1.
Proof.
  intros H. unfold Ghz.hex_ones_value, Ghz.shl_ull.
  replace ((0 <=? n) && (n <? 64)) with true
    by (symmetry; apply andb_true_iff; split; [apply Z.leb_le|apply Z.ltb_lt]; lia).
  rewrite Z.shiftl_1_l.
  pose proof (pow2_le_63 n H) as P.
  assert (2 ^ 63 < 2 ^ 64) by reflexivity.
  rewrite (wrap64_small (2 ^ n)) by lia.
  apply wrap64_small. lia.
Qed.

Lemma hex_ones_value_range (shl : Z -> Z -> Z) (n : Z) :
  0 <= Ghz.hex_ones_value shl n < 2 ^ 64.
Proof. apply wrap64_range. Qed.

Lemma hex_of_N_inj (a b : N) : HexString.of_N a = HexString.of_N b -> a = b.
Proof.
  intros H. rewrite <- (HexString.to_N_of_N a), <- (HexString.to_N_of_N b).
  f_equal. exact H.
Qed.

Lemma hex_of_N_prefix (a : N) :
  exists rest, HexString.of_N a = String "0" (String "x" rest).
Proof.
  destruct a as [|p]; [exists "0"%string; reflexivity|].
  exists (HexString.Raw.of_pos p ""). reflexivity.
Qed.

Lemma fill_succ (n : nat) (c : ascii) : Ghz.fill (Datatypes.S n) c = String c (Ghz.fill n c).
Proof. reflexivity. Qed.

(** A hexadecimal rendering is never one of the bit-string keys. *)
Lemma hex_not_bitstring (a : N) (nq : Z) (c : ascii) :
  c <> "x"%char -> 2 <= nq -> HexString.of_N a <> Ghz.fill (Z.to_nat nq) c.
Proof.
  intros Hc Hn E. destruct (hex_of_N_prefix a) as [rest Hr]. rewrite Hr in E.
  destruct (Z.to_nat nq) as [|[|k]] eqn:Ek; [lia|lia|].
  rewrite !fill_succ in E. injection E as _ E1 _. congruence.
Qed.

Lemma hex_ones_str_exact (shl : Z -> Z -> Z) (n : Z) :
  0 <= n <= 63 -> Ghz.hex_ones_str shl n = HexString.of_N (Z.to_N (2 ^ n - 1)).
Proof. intros H. unfold Ghz.hex_ones_str. rewrite hex_ones_value_exact by exact H. reflexivity. Qed.

(** No 64-bit value renders as the hexadecimal string of a wider one. *)
Lemma hex_ones_str_narrow (shl : Z -> Z -> Z) (n : Z) (v : Z) :
  2 ^ 64 <= v -> Ghz.hex_ones_str shl n <> HexString.of_N (Z.to_N v).
Proof.
  intros Hv E. apply hex_of_N_inj in E.
  pose proof (hex_ones_value_range shl n) as R. lia.
Qed.

(** C1 (evaluation at the failing input): for 127 qubits the value of
    [(1ULL << num_qubits) - 1] is a 64-bit number under every behaviour of the
    out-of-range shift, hence below 2^127 - 1; with the shift of x86-64 and
    AArch64 it is 2^63 - 1, rendered 0x7fffffffffffffff. *)
Theorem hex_ones_value_127_overflows :
  forall shl : Z -> Z -> Z,
    Ghz.hex_ones_value shl 127 < 2 ^ 127 - 1
    /\ Ghz.hex_ones_value Ghz.shl_masked 127 = 2 ^ 63 - 1
    /\ Ghz.hex_ones_str Ghz.shl_masked 127 = "0x7fffffffffffffff"%string.
Proof.
  intros shl. split; [|split; reflexivity].
  pose proof (hex_ones_value_range shl 127) as R.
  assert (2 ^ 64 < 2 ^ 127 - 1) by reflexivity. lia.
Qed.

(** The all-zeros reference keys denote 0, and the all-ones key is exact as
    long as the shift count is below the width of the type. *)
Lemma reference_keys_small (shl : Z -> Z -> Z) (n : Z) :
  2 <= n <= 63 ->
  strtol "0x0" 0 = 0 /\ strtol "0" 0 = 0
  /\ Ghz.hex_ones_value shl n = 2 ^ n - 1.
Proof.
  intros H. split; [reflexivity|split; [reflexivity|]].
  apply hex_ones_value_exact. lia.
Qed.

(** ** Classification of the keys *)

Lemma to_int_small (z : Z) : in_int z -> to_int z = z.
Proof.
  unfold in_int, INT_MIN, INT_MAX, to_int. intros H.
  rewrite Z.mod_small; lia.
Qed.

Lemma classify_zeros (shl : Z -> Z -> Z) (nq : Z) (t : Ghz.tally) (c : string * Z) :
  to_zeros nq (fst c) = true ->
  Ghz.classify shl nq t c =
  {| Ghz.count_all_zeros := to_int (snd c);
     Ghz.count_all_ones := Ghz.count_all_ones t;
     Ghz.count_other := Ghz.count_other t |}.
Proof. unfold to_zeros, Ghz.classify. intros ->. reflexivity. Qed.

Lemma classify_ones (shl : Z -> Z -> Z) (nq : Z) (t : Ghz.tally) (c : string * Z) :
  to_ones shl nq (fst c) = true ->
  Ghz.classify shl nq t c =
  {| Ghz.count_all_zeros := Ghz.count_all_zeros t;
     Ghz.count_all_ones := to_int (snd c);
     Ghz.count_other := Ghz.count_other t |}.
Proof.
  unfold to_ones, Ghz.classify. intros H.
  apply andb_true_iff in H as [Hz Ho]. apply negb_true_iff in Hz.
  rewrite Hz, Ho. reflexivity.
Qed.

Lemma classify_other (shl : Z -> Z -> Z) (nq : Z) (t : Ghz.tally) (c : string * Z) :
  to_other shl nq (fst c) = true ->
  Ghz.classify shl nq t c =
  {| Ghz.count_all_zeros := Ghz.count_all_zeros t;
     Ghz.count_all_ones := Ghz.count_all_ones t;
     Ghz.count_other := to_int (Ghz.count_other t + snd c) |}.
Proof.
  unfold to_other, Ghz.classify. intros H.
  apply andb_true_iff in H as [Hz Ho]. apply negb_true_iff in Hz, Ho.
  rewrite Hz, Ho. reflexivity.
Qed.

(** Every key takes exactly one branch. *)
Lemma branch_cases (shl : Z -> Z -> Z) (nq : Z) (key : string) :
  (to_zeros nq key = true /\ to_ones shl nq key = false /\ to_other shl nq key = false)
  \/ (to_zeros nq key = false /\ to_ones shl nq key = true /\ to_other shl nq key = false)
  \/ (to_zeros nq key = false /\ to_ones shl nq key = false /\ to_other shl nq key = true).
Proof.
  unfold to_zeros, to_ones, to_other.
  destruct (Ghz.is_zeros_key nq key), (Ghz.is_ones_key shl nq key); cbn; tauto.
Qed.

Lemma counts_where_cons (p : string -> bool) (c : string * Z) (counts : list (string * Z)) :
  counts_where p (c :: counts) =
  (if p (fst c) then [snd c] else []) ++ counts_where p counts.
Proof.
  unfold counts_where. rewrite filter_cons.
  destruct (p (fst c)) eqn:E.
  - rewrite decide_True by reflexivity. reflexivity.
  - rewrite decide_False by discriminate. reflexivity.
Qed.

Lemma default_last_cons {A : Type} (d x : A) (l : list A) :
  default d (last (x :: l)) = default x (last l).
Proof.
  destruct l as [|y l]; [reflexivity|].
  change (last (x :: y :: l)) with (last (y :: l)).
  destruct (last (y :: l)) eqn:E; [reflexivity|].
  apply last_None in E. discriminate.
Qed.

(** Assignment: the all-zeros bucket ends with the count of the last key
    that took the first branch, or with its initial value when none did. *)
Lemma fold_classify_zeros (shl : Z -> Z -> Z) (nq : Z) (counts : list (string * Z)) :
  forall t : Ghz.tally,
    Ghz.count_all_zeros (fold_left (Ghz.classify shl nq) counts t) =
    default (Ghz.count_all_zeros t)
      (last (map to_int (counts_where (to_zeros nq) counts))).
Proof.
  induction counts as [|c rest IH]; intros t; [reflexivity|].
  cbn [fold_left]. rewrite IH, counts_where_cons.
  destruct (branch_cases shl nq (fst c)) as [(Hz & Ho & Hx)|[(Hz & Ho & Hx)|(Hz & Ho & Hx)]];
    rewrite Hz; cbn [app map].
  - rewrite classify_zeros by exact Hz. rewrite default_last_cons. reflexivity.
  - rewrite classify_ones by exact Ho. reflexivity.
  - rewrite classify_other by exact Hx. reflexivity.
Qed.

(** The same for the all-ones bucket and the second branch. *)
Lemma fold_classify_ones (shl : Z -> Z -> Z) (nq : Z) (counts : list (string * Z)) :
  forall t : Ghz.tally,
    Ghz.count_all_ones (fold_left (Ghz.classify shl nq) counts t) =
    default (Ghz.count_all_ones t)
      (last (map to_int (counts_where (to_ones shl nq) counts))).
Proof.
  induction counts as [|c rest IH]; intros t; [reflexivity|].
  cbn [fold_left]. rewrite IH, counts_where_cons.
  destruct (branch_cases shl nq (fst c)) as [(Hz & Ho & Hx)|[(Hz & Ho & Hx)|(Hz & Ho & Hx)]];
    rewrite Ho; cbn [app map].
  - rewrite classify_zeros by exact Hz. reflexivity.
  - rewrite classify_ones by exact Ho. rewrite default_last_cons. reflexivity.
  - rewrite classify_other by exact Hx. reflexivity.
Qed.

Lemma sumZ_app (l1 l2 : list Z) : sumZ (l1 ++ l2) = sumZ l1 + sumZ l2.
Proof. induction l1 as [|x l1 IH]; cbn; [reflexivity|]. unfold sumZ in *. lia. Qed.

Lemma sumZ_nonneg (l : list Z) : Forall (fun n => 0 <= n) l -> 0 <= sumZ l.
Proof. induction 1 as [|x l Hx Hl IH]; cbn; unfold sumZ in *; lia. Qed.

(** The three branches partition the histogram. *)
Lemma histogram_partition (shl : Z -> Z -> Z) (nq : Z) (counts : list (string * Z)) :
  histogram_total counts =
  sumZ (counts_where (to_zeros nq) counts)
  + sumZ (counts_where (to_ones shl nq) counts)
  + sumZ (counts_where (to_other shl nq) counts).
Proof.
  unfold histogram_total.
  induction counts as [|c rest IH]; [reflexivity|].
  rewrite !counts_where_cons, !sumZ_app. cbn [map].
  change (sumZ (snd c :: map snd rest)) with (snd c + sumZ (map snd rest)).
  rewrite IH.
  destruct (branch_cases shl nq (fst c)) as [(Hz & Ho & Hx)|[(Hz & Ho & Hx)|(Hz & Ho & Hx)]];
    rewrite Hz, Ho, Hx; cbn; lia.
Qed.

Lemma counts_where_nonneg (p : string -> bool) (counts : list (string * Z)) :
  Forall (fun n => 0 <= n) (map snd counts) ->
  Forall (fun n => 0 <= n) (counts_where p counts).
Proof.
  induction counts as [|c rest IH]; intros H; [constructor|].
  rewrite counts_where_cons. cbn [map] in H. inversion H as [|? ? Hc Hr]; subst.
  destruct (p (fst c)); cbn [app]; [constructor; [exact Hc|]|]; apply IH; exact Hr.
Qed.

(** Accumulation: without overflow the other bucket grows by the counts of
    the keys that took the third branch. *)
Lemma fold_classify_other (shl : Z -> Z -> Z) (nq : Z) (counts : list (string * Z)) :
  forall t : Ghz.tally,
    Forall (fun n => 0 <= n) (map snd counts) ->
    0 <= Ghz.count_other t ->
    Ghz.count_other t + sumZ (counts_where (to_other shl nq) counts) <= INT_MAX ->
    Ghz.count_other (fold_left (Ghz.classify shl nq) counts t) =
    Ghz.count_other t + sumZ (counts_where (to_other shl nq) counts).
Proof.
  induction counts as [|c rest IH]; intros t Hpos Ht Hmax.
  - cbn. unfold sumZ. cbn. lia.
  - cbn [fold_left]. cbn [map] in Hpos. inversion Hpos as [|? ? Hc Hr]; subst.
    rewrite counts_where_cons, sumZ_app in Hmax |- *.
    pose proof (sumZ_nonneg _ (counts_where_nonneg (to_other shl nq) rest Hr)) as Hs.
    destruct (branch_cases shl nq (fst c)) as [(Hz & Ho & Hx)|[(Hz & Ho & Hx)|(Hz & Ho & Hx)]];
      rewrite Hx in Hmax |- *; cbn [sumZ foldr] in Hmax |- *.
    + rewrite classify_zeros by exact Hz.
      rewrite IH; cbn [Ghz.count_other]; [lia|exact Hr|exact Ht|lia].
    + rewrite classify_ones by exact Ho.
      rewrite IH; cbn [Ghz.count_other]; [lia|exact Hr|exact Ht|lia].
    + assert (to_int (Ghz.count_other t + snd c) = Ghz.count_other t + snd c) as E.
      { apply to_int_small. unfold in_int, INT_MIN, INT_MAX in *. lia. }
      rewrite classify_other by exact Hx.
      rewrite IH; cbn [Ghz.count_other]; rewrite ?E; [lia|exact Hr|lia|lia].
Qed.

(** ** The counting loop of the C program *)

Lemma count_sample_invalid (counts : list Z) (sample : option string) :
  valid_sample sample = false -> BellC.count_sample counts sample = counts.
Proof.
  destruct sample as [s|]; [|reflexivity].
  unfold valid_sample, BellC.count_sample. intros ->. reflexivity.
Qed.

(** One valid sample adds one to one of the four counters. *)
Lemma count_sample_valid (counts : list Z) (sample : option string) :
  length counts = 4%nat ->
  Forall (fun n => 0 <= n) counts ->
  sumZ counts < INT_MAX ->
  valid_sample sample = true ->
  length (BellC.count_sample counts sample) = 4%nat
  /\ Forall (fun n => 0 <= n) (BellC.count_sample counts sample)
  /\ sumZ (BellC.count_sample counts sample) = sumZ counts + 1.
Proof.
  intros Hlen Hpos Hsum Hv.
  destruct sample as [s|]; [|discriminate].
  unfold valid_sample in Hv. unfold BellC.count_sample. rewrite Hv.
  apply andb_true_iff in Hv as [H0 H4].
  apply Z.leb_le in H0. apply Z.ltb_lt in H4.
  destruct counts as [|a [|b [|c [|d [|? ?]]]]]; try discriminate.
  apply Forall_cons in Hpos as [Ha Hpos].
  apply Forall_cons in Hpos as [Hb Hpos].
  apply Forall_cons in Hpos as [Hc Hpos].
  apply Forall_cons in Hpos as [Hd _].
  unfold sumZ in Hsum |- *. cbn [foldr] in Hsum.
  assert (forall x, 0 <= x -> x < INT_MAX -> to_int (x + 1) = x + 1) as Hint.
  { intros x ? ?. apply to_int_small. unfold in_int, INT_MIN, INT_MAX in *. lia. }
  assert (to_int (strtol s 0) = 0 \/ to_int (strtol s 0) = 1
          \/ to_int (strtol s 0) = 2 \/ to_int (strtol s 0) = 3) as Hcase by lia.
  destruct Hcase as [E|[E|[E|E]]]; rewrite E;
    match goal with |- context [Z.to_nat ?k] =>
      let n := eval vm_compute in (Z.to_nat k) in change (Z.to_nat k) with n end;
    cbn;
    rewrite Hint by lia; (split; [reflexivity|]); (split; [|lia]);
    repeat (apply Forall_cons; split; [lia|]); apply Forall_nil_2.
Qed.

Lemma count_valid_cons (sample : option string) (samples : list (option string)) :
  count_valid (sample :: samples) =
  (if valid_sample sample then 1 else 0) + count_valid samples.
Proof.
  unfold count_valid. rewrite filter_cons.
  destruct (valid_sample sample) eqn:E.
  - rewrite decide_True by reflexivity. cbn [length]. lia.
  - rewrite decide_False by discriminate. lia.
Qed.

Lemma count_valid_bound (samples : list (option string)) :
  0 <= count_valid samples <= Z.of_nat (length samples).
Proof.
  induction samples as [|s rest IH]; [unfold count_valid; cbn; lia|].
  rewrite count_valid_cons. cbn [length]. destruct (valid_sample s); lia.
Qed.

(** The loop keeps four non-negative counters and adds the number of valid
    samples to their sum. *)
Lemma fold_count_sample (samples : list (option string)) :
  forall counts : list Z,
    length counts = 4%nat ->
    Forall (fun n => 0 <= n) counts ->
    sumZ counts + Z.of_nat (length samples) <= INT_MAX ->
    sumZ (fold_left BellC.count_sample samples counts) = sumZ counts + count_valid samples.
Proof.
  induction samples as [|s rest IH]; intros counts Hlen Hpos Hsum.
  - unfold count_valid. rewrite filter_nil. cbn [fold_left length]. lia.
  - cbn [fold_left]. rewrite count_valid_cons.
    rewrite length_cons, Nat2Z.inj_succ in Hsum.
    destruct (valid_sample s) eqn:Hv.
    + assert (sumZ counts < INT_MAX) as Hlt by lia.
      destruct (count_sample_valid counts s Hlen Hpos Hlt Hv) as (L & P & E).
      rewrite IH; [lia|exact L|exact P|lia].
    + rewrite count_sample_invalid by exact Hv.
      rewrite IH; [lia|exact Hlen|exact Hpos|lia].
Qed.

Lemma tabulate_skip (pre post : list (option string)) (sample : option string) :
  valid_sample sample = false ->
  BellC.tabulate (pre ++ sample :: post) = BellC.tabulate (pre ++ post).
Proof.
  intros H. unfold BellC.tabulate. rewrite !fold_left_app. cbn [fold_left].
  rewrite count_sample_invalid by exact H. reflexivity.
Qed.

(** ** Runs that reach the report *)

Lemma bind_inv {A B : Type} (m : prog A) (k : A -> prog B) (evs : list event) (b : B) :
  completes (m ≫= k) evs b ->
  exists ev1 a ev2, completes m ev1 a /\ completes (k a) ev2 b /\ evs = ev1 ++ ev2.
Proof.
  unfold completes, mbind, prog_bind. destruct m as [ev1 [a|o]]; [|discriminate].
  destruct (k a) as [ev2 r] eqn:E. intros [= <- ->]. eauto 6.
Qed.

Lemma segment_here (part post : list event) : segment part (part ++ post).
Proof. exists [], post. reflexivity. Qed.

Lemma segment_app_r (part pre evs : list event) :
  segment part evs -> segment part (pre ++ evs).
Proof.
  intros (p & q & ->). exists (pre ++ p), q. rewrite <- app_assoc. reflexivity.
Qed.

(** Peel the first statement off a completed sequence; what is sought lies
    in the rest. *)
Ltac skip_statement H :=
  let H1 := fresh "Hfirst" in
  cbv zeta in H;
  apply bind_inv in H as (? & ? & ? & H1 & H & ->);
  clear H1; apply segment_app_r.

(** A run of the C program that reaches its final [return] has printed the
    four counters of [tabulate], each against the number of samples. *)
Lemma bell_c_displays (argv : list string) (w : BellC.world) (evs : list event) (code : Z) :
  completes (BellC.body argv w) evs code ->
  segment
    (BellC.display (BellC.tabulate (BellC.samples w))
       (Z.of_nat (length (BellC.samples w))))
    evs.
Proof.
  unfold BellC.body. destruct (BellC.config argv) as [backend_name num_shots].
  intros H.
  repeat lazymatch type of H with
         | completes (for_each emit _ ≫= _) _ _ => fail
         | completes (_ ≫= _) _ _ => skip_statement H
         end.
  apply bind_inv in H as (e1 & a & e2 & H1 & _ & ->).
  unfold completes in H1. rewrite for_each_emit in H1. injection H1 as <- _.
  apply segment_here.
Qed.

Lemma completes_bind {A B : Type} (m : prog A) (k : A -> prog B)
    (ev1 ev2 : list event) (a : A) (b : B) :
  completes m ev1 a -> completes (k a) ev2 b -> completes (m ≫= k) (ev1 ++ ev2) b.
Proof. unfold completes. intros -> H. rewrite bind_next, H. reflexivity. Qed.

Lemma for_each_call {A : Type} (f : A -> sdk_call) (l : list A) :
  for_each (fun i => call (f i)) l = (map (fun i => Sdk (f i)) l, Next tt).
Proof.
  induction l as [|x l IH]; [reflexivity|].
  change (for_each (fun i => call (f i)) (x :: l))
    with (emit (Sdk (f x)) ≫= fun _ => for_each (fun i => call (f i)) l).
  rewrite bind_emit, IH. reflexivity.
Qed.

Lemma build_circuit_spec (nq : Z) :
  Ghz.build_circuit nq = (ghz_circuit_events nq, Next tt).
Proof.
  unfold Ghz.build_circuit, call. rewrite !bind_emit.
  rewrite (for_each_call (GateCX 0)), bind_next. reflexivity.
Qed.

(** The command line of the GHZ program: the three ways [parse] can go. *)
Lemma parse_usage (argv : list string) :
  argc argv < 3 ->
  Ghz.parse argv = (fst (Ghz.print_usage (arg 0 argv)), Halt (Exit 1)).
Proof.
  intros H. unfold Ghz.parse.
  replace (argc argv <? 3) with true by (symmetry; apply Z.ltb_lt; exact H).
  reflexivity.
Qed.

Lemma parse_range (argv : list string) :
  3 <= argc argv ->
  atoi (arg 1 argv) < 2 \/ 127 < atoi (arg 1 argv) ->
  Ghz.parse argv =
  ([Stderr [Txt "Error: num_qubits must be between 2 and 127"]], Halt (Exit 1)).
Proof.
  intros H Hq. unfold Ghz.parse.
  replace (argc argv <? 3) with false by (symmetry; apply Z.ltb_ge; exact H).
  rewrite bind_ret.
  replace ((atoi (arg 1 argv) <? 2) || (127 <? atoi (arg 1 argv))) with true.
  - reflexivity.
  - symmetry. apply orb_true_iff.
    destruct Hq; [left|right]; apply Z.ltb_lt; assumption.
Qed.

Lemma parse_ok (argv : list string) :
  3 <= argc argv ->
  2 <= atoi (arg 1 argv) <= 127 ->
  Ghz.parse argv =
  ([], Next {| Ghz.num_qubits := atoi (arg 1 argv);
               Ghz.backend_name := arg 2 argv;
               Ghz.num_shots := if 3 <? argc argv then atoi (arg 3 argv) else 1024 |}).
Proof.
  intros H Hq. unfold Ghz.parse.
  replace (argc argv <? 3) with false by (symmetry; apply Z.ltb_ge; exact H).
  rewrite bind_ret.
  replace ((atoi (arg 1 argv) <? 2) || (127 <? atoi (arg 1 argv))) with false.
  - reflexivity.
  - symmetry. apply orb_false_iff. split; apply Z.ltb_ge; lia.
Qed.

Lemma parse_inv (argv : list string) (ev : list event) (cfg : Ghz.config) :
  completes (Ghz.parse argv) ev cfg ->
  ev = [] /\ 3 <= argc argv /\ 2 <= atoi (arg 1 argv) <= 127.
Proof.
  unfold completes. intros H.
  destruct (Z.lt_ge_cases (argc argv) 3) as [Hc|Hc];
    [rewrite parse_usage in H by exact Hc; discriminate|].
  destruct (Z.lt_ge_cases (atoi (arg 1 argv)) 2) as [Hlo|Hlo];
    [rewrite parse_range in H by (try left; assumption); discriminate|].
  destruct (Z.lt_ge_cases 127 (atoi (arg 1 argv))) as [Hhi|Hhi];
    [rewrite parse_range in H by (try right; assumption); discriminate|].
  rewrite parse_ok in H by lia. injection H as <- _. repeat split; lia.
Qed.

Lemma completes_emit_then {B : Type} (e : event) (k : unit -> prog B)
    (evs : list event) (b : B) :
  completes (k tt) evs b -> completes (emit e ≫= k) (e :: evs) b.
Proof. unfold completes. intros H. rewrite bind_emit, H. reflexivity. Qed.

(** The whole run of the GHZ program for a valid command line and a job
    that returned counts. *)
Lemma ghz_body_spec (shl : Z -> Z -> Z) (argv : list string) (w : cpp_world)
    (cfg : Ghz.config) (counts : list (string * Z)) :
  completes (Ghz.parse argv) [] cfg ->
  job_counts w = Some counts ->
  completes (Ghz.body shl argv w)
    (ghz_preamble cfg w ++ ghz_report_lines shl cfg counts ++ ghz_trailer) 0.
Proof.
  intros Hp Hjob. unfold Ghz.body.
  unfold ghz_preamble, ghz_trailer. rewrite <- !List.app_assoc.
  lazymatch goal with
  | |- completes _ ?l _ => change l with ([] ++ l)
  end.
  eapply completes_bind; [exact Hp|].
  cbn [app].
  do 6 apply completes_emit_then.
  eapply completes_bind; [apply build_circuit_spec|].
  do 2 apply completes_emit_then.
  eapply completes_bind; [destruct (Ghz.num_qubits cfg <=? 10); reflexivity|].
  do 4 apply completes_emit_then.
  rewrite Hjob.
  do 2 apply completes_emit_then.
  eapply completes_bind; [apply report_spec|].
  do 3 apply completes_emit_then.
  reflexivity.
Qed.

Lemma ghz_run (shl : Z -> Z -> Z) (argv : list string) (w : cpp_world)
    (cfg : Ghz.config) (counts : list (string * Z)) :
  completes (Ghz.parse argv) [] cfg ->
  job_counts w = Some counts ->
  Ghz.main shl argv w
  = (ghz_preamble cfg w ++ ghz_report_lines shl cfg counts ++ ghz_trailer, Exit 0).
Proof.
  intros Hp Hjob. unfold Ghz.main.
  rewrite (ghz_body_spec shl argv w cfg counts Hp Hjob). reflexivity.
Qed.

(** A command line that [parse] refuses ends the run with what [parse]
    printed. *)
Lemma ghz_main_refused (shl : Z -> Z -> Z) (argv : list string) (w : cpp_world)
    (ev : list event) (o : outcome) :
  Ghz.parse argv = (ev, Halt o) -> Ghz.main shl argv w = (ev, o).
Proof. unfold Ghz.main, Ghz.body. intros ->. reflexivity. Qed.

(** ** The C++ Bell program *)

Lemma for_each_print_count (shots : Z) (counts : list (string * Z)) :
  for_each (BellCpp.print_count shots) counts = (map (detail_line shots) counts, Next tt).
Proof.
  induction counts as [|c rest IH]; [reflexivity|].
  change (for_each (BellCpp.print_count shots) (c :: rest))
    with (emit (detail_line shots c) ≫= fun _ => for_each (BellCpp.print_count shots) rest).
  rewrite bind_emit, IH. reflexivity.
Qed.

(** The whole run of the C++ Bell program when the job returned counts. *)
Lemma bell_cpp_run (argv : list string) (w : cpp_world) (counts : list (string * Z)) :
  job_counts w = Some counts ->
  BellCpp.main argv w
  = (bell_cpp_preamble (fst (BellCpp.config argv)) (snd (BellCpp.config argv)) w
       ++ map (detail_line (snd (BellCpp.config argv))) counts
       ++ bell_cpp_trailer,
     Exit 0).
Proof.
  intros Hjob. unfold BellCpp.main, BellCpp.body.
  destruct (BellCpp.config argv) as [backend_name num_shots]. rewrite Hjob.
  cbn [fst snd].
  assert (forall m : prog Z, forall evs, completes m evs 0 -> exec m = (evs, Exit 0)) as E
    by (unfold completes; intros m evs ->; reflexivity).
  apply E. unfold bell_cpp_preamble, bell_cpp_trailer. cbn [app].
  do 21 apply completes_emit_then.
  eapply completes_bind; [apply for_each_print_count|].
  do 2 apply completes_emit_then.
  reflexivity.
Qed.

(** ** Percentages *)


(** Against a positive denominator, the test [percentage > 1.0] is
    [100 * count > denom]. *)
Lemma fgt_percent (count denom : Z) :
  0 < denom -> fgt (percent count denom) 1 = (denom <? 100 * count).
Proof.
  intros H. destruct denom as [|p|p]; try lia.
  unfold percent, fdiv. cbn [Z.eqb fgt].
  rewrite Z.ltb_antisym. f_equal.
  apply eq_iff_eq_true. rewrite Qle_bool_iff, Qred_correct, Z.leb_le.
  unfold Qle, Qdiv, Qmult, Qinv, inject_Z. cbn [Qnum Qden]. lia.
Qed.

Lemma top_lines_threshold (shots : Z) (counts : list (string * Z)) :
  0 < shots ->
  top_lines shots counts =
  map (detail_line shots) (filter (fun c => shots < 100 * snd c) counts).
Proof.
  intros H. unfold top_lines. f_equal.
  induction counts as [|c rest IH]; [reflexivity|].
  rewrite !filter_cons, IH, fgt_percent by exact H.
  destruct (Z.ltb_spec shots (100 * snd c)).
  - rewrite !decide_True by (reflexivity || assumption). reflexivity.
  - rewrite !decide_False by (discriminate || lia). reflexivity.
Qed.

Lemma detail_line_shows (denom : Z) (c : string * Z) :
  shows_percent_of denom (detail_line denom c).
Proof. exists (fst c), (snd c). left. reflexivity. Qed.

Lemma top_lines_show (shots : Z) (counts : list (string * Z)) :
  Forall (shows_percent_of shots) (top_lines shots counts).
Proof. unfold top_lines. apply Forall_map, Forall_forall. intros c _. apply detail_line_shows. Qed.

Lemma summary_lines_show (shots : Z) (t : Ghz.tally) :
  Forall (shows_percent_of shots) (summary_lines shots t).
Proof.
  unfold summary_lines.
  repeat (apply Forall_cons; split; [eexists _, _; right; reflexivity|]).
  apply Forall_nil_2.
Qed.

Lemma display_shows (counts : list Z) (n : Z) :
  Forall (shows_percent_of n) (BellC.display counts n).
Proof.
  unfold BellC.display.
  repeat (apply Forall_cons; split; [eexists _, _; left; reflexivity|]).
  apply Forall_nil_2.
Qed.

(** The conversion to [int] comes before the range test: a sample wider
    than 32 bits is reduced first, and 0x100000000 is counted as outcome
    00. *)
Example bell_c_wide_sample_wraps :
  BellC.tabulate [Some "0x100000000"] = [1; 0; 0; 0].
Proof. reflexivity. Qed.

(** C2 (counterexample): a 2-qubit run whose counts hold the key 0x4, the
    value 2^2 one past the maximum, reports that sample in the other
    bucket. *)
Lemma ghz_counts_value_past_maximum :
  strtol "0x4" 0 = 2 ^ 2
  /\ In (Stdout (Ghz.bucket_line "  Other (noise): " 1 (Fin 100)))
       (fst (Ghz.main Ghz.shl_masked ["ghz_20q"; "2"; "ibm_fez"; "1"]
               (cpp_counts [("0x4", 1)]))).
Proof. split; [reflexivity|]. vm_compute. intuition. Qed.

(** C3 (counterexample): with 1024 shots configured and one sample
    returned, the C program prints 100% for the outcome 00, which is
    100 * 1 / 1 and not 100 * 1 / 1024. *)
Lemma bell_c_percent_of_sample_count :
  snd (BellC.config ["bell_state_c"; "ibm_fez"; "1024"]) = 1024
  /\ In (Stdout (ket_line "00" 1 (Fin 100)))
       (fst (BellC.main ["bell_state_c"; "ibm_fez"; "1024"] (c_world [Some "0x0"])))
  /\ percent 1 1024 = Fin (25 # 256).
Proof. split; [reflexivity|split; [|reflexivity]]. vm_compute. intuition. Qed.

(** C4 (amended): in the C program the four counters sum to the number of
    samples that are non-null and in range; in the GHZ program the three
    buckets sum to the total of the histogram when at most one key takes the
    all-zeros branch and at most one the all-ones branch (counts
    non-negative, total within [int]). *)
Theorem histogram_totals :
  (forall samples : list (option string),
      Z.of_nat (length samples) <= INT_MAX ->
      sumZ (BellC.tabulate samples) = count_valid samples)
  /\ (forall (shl : Z -> Z -> Z) (nq : Z) (counts : list (string * Z)),
         (length (counts_where (to_zeros nq) counts) <= 1)%nat ->
         (length (counts_where (to_ones shl nq) counts) <= 1)%nat ->
         Forall (fun n => 0 <= n) (map snd counts) ->
         histogram_total counts <= INT_MAX ->
         bucket_total (tally_of shl nq counts) = histogram_total counts).
Proof.
  split.
  - intros samples H. unfold BellC.tabulate.
    rewrite fold_count_sample.
    + reflexivity.
    + reflexivity.
    + repeat (apply Forall_cons; split; [lia|]). apply Forall_nil_2.
    + cbn. exact H.
  - intros shl nq counts Hz Ho Hpos Hmax.
    pose proof (histogram_partition shl nq counts) as P.
    pose proof (sumZ_nonneg _ (counts_where_nonneg (to_zeros nq) counts Hpos)) as Nz.
    pose proof (sumZ_nonneg _ (counts_where_nonneg (to_ones shl nq) counts Hpos)) as No.
    pose proof (sumZ_nonneg _ (counts_where_nonneg (to_other shl nq) counts Hpos)) as Nx.
    assert (forall l : list Z, (length l <= 1)%nat -> 0 <= sumZ l <= INT_MAX ->
              default 0 (last (map to_int l)) = sumZ l) as One.
    { intros [|x [|y l]] Hl Hr; cbn in Hl; try lia.
      - reflexivity.
      - cbn in Hr |- *. rewrite to_int_small; unfold in_int, INT_MIN, INT_MAX in *; lia. }
    unfold bucket_total, tally_of.
    rewrite fold_classify_zeros, fold_classify_ones, fold_classify_other;
      cbn [zero_tally Ghz.count_all_zeros Ghz.count_all_ones Ghz.count_other];
      try assumption; try lia.
    rewrite !One by (assumption || lia). lia.
Qed.

Lemma histogram_totals_witness :
  sumZ (BellC.tabulate [Some "0x0"; Some "0x4"; None; Some "0x3"])
  = count_valid [Some "0x0"; Some "0x4"; None; Some "0x3"]
  /\ bucket_total (tally_of Ghz.shl_masked 2 [("00", 518); ("11", 500); ("01", 6)])
     = histogram_total [("00", 518); ("11", 500); ("01", 6)].
Proof.
  split.
  - apply (proj1 histogram_totals [Some "0x0"; Some "0x4"; None; Some "0x3"]).
    vm_compute. discriminate.
  - apply (proj2 histogram_totals Ghz.shl_masked 2 [("00", 518); ("11", 500); ("01", 6)]).
    + vm_compute. lia.
    + vm_compute. lia.
    + cbn [map snd]. repeat (apply Forall_cons; split; [lia|]). apply Forall_nil_2.
    + vm_compute. discriminate.
Defined.

(** C4 (counterexample): the keys 00 and 0x0 are distinct and both take the
    all-zeros branch; the second assignment replaces the first, so the three
    buckets sum to 7 while the histogram holds 12 samples. *)
Lemma ghz_buckets_lose_earlier_key :
  tally_of Ghz.shl_masked 2 [("00", 5); ("0x0", 7)]
  = {| Ghz.count_all_zeros := 7; Ghz.count_all_ones := 0; Ghz.count_other := 0 |}
  /\ bucket_total (tally_of Ghz.shl_masked 2 [("00", 5); ("0x0", 7)]) = 7
  /\ histogram_total [("00", 5); ("0x0", 7)] = 12.
Proof. repeat split. Qed.




(** C6 (amended): the shot count is 1024 when the third argument is
    absent and [atoi] of it when present; the value is not checked, so any
    text is accepted and a non-positive count does not stop the
    configuration. *)
Theorem ghz_shot_count_argument :
  forall argv : list string,
    3 <= argc argv ->
    2 <= atoi (arg 1 argv) <= 127 ->
    exists cfg,
      Ghz.parse argv = ([], Next cfg)
      /\ Ghz.num_shots cfg = (if 3 <? argc argv then atoi (arg 3 argv) else 1024).
Proof.
  intros argv Hc Hq. eexists. split; [apply parse_ok; assumption|reflexivity].
Qed.

Lemma ghz_shot_count_argument_witness :
  exists cfg,
    Ghz.parse ["ghz_20q"; "20"; "ibm_fez"] = ([], Next cfg)
    /\ Ghz.num_shots cfg = 1024.
Proof.
  apply (ghz_shot_count_argument ["ghz_20q"; "20"; "ibm_fez"]).
  - vm_compute. discriminate.
  - vm_compute. split; discriminate.
Defined.

(** C6 (counterexample): the shot counts "0", "-5" and "many" are accepted:
    the configuration is built with 0, -5 and 0 shots, and the run with "0"
    goes on to submit a job with 0 shots. *)
Lemma ghz_accepts_non_positive_shots :
  Ghz.parse ["ghz_20q"; "20"; "ibm_fez"; "0"]
  = ([], Next {| Ghz.num_qubits := 20; Ghz.backend_name := "ibm_fez"; Ghz.num_shots := 0 |})
  /\ Ghz.parse ["ghz_20q"; "20"; "ibm_fez"; "-5"]
     = ([], Next {| Ghz.num_qubits := 20; Ghz.backend_name := "ibm_fez"; Ghz.num_shots := -5 |})
  /\ Ghz.parse ["ghz_20q"; "20"; "ibm_fez"; "many"]
     = ([], Next {| Ghz.num_qubits := 20; Ghz.backend_name := "ibm_fez"; Ghz.num_shots := 0 |})
  /\ In (Sdk (SamplerRun 0))
       (fst (Ghz.main Ghz.shl_masked ["ghz_20q"; "20"; "ibm_fez"; "0"] (cpp_counts []))).
Proof. repeat (split; [reflexivity|]). vm_compute. intuition. Qed.

(** ** The qubit-count argument *)

Lemma strip_prefix_decimal (s : string) : strip_prefix 10 s = (10, s).
Proof.
  destruct s as [|c0 [|c1 s]]; cbn; try reflexivity.
  rewrite andb_false_r. reflexivity.
Qed.





(** ** The 1% threshold *)

Lemma is_detail_line_detail (denom : Z) (c : string * Z) :
  is_detail_line (detail_line denom c) = true.
Proof. reflexivity. Qed.

Lemma filter_detail_lines (denom : Z) (counts : list (string * Z)) :
  filter (fun e => is_detail_line e = true) (map (detail_line denom) counts)
  = map (detail_line denom) counts.
Proof.
  induction counts as [|c rest IH]; [reflexivity|].
  cbn [map]. rewrite filter_cons, decide_True by apply is_detail_line_detail.
  rewrite IH. reflexivity.
Qed.

Lemma filter_no_detail (l : list event) :
  forallb (fun e => negb (is_detail_line e)) l = true ->
  filter (fun e => is_detail_line e = true) l = [].
Proof.
  induction l as [|e l IH]; [reflexivity|].
  cbn [forallb]. intros [He Hl]%andb_true_iff. apply negb_true_iff in He.
  rewrite filter_cons, decide_False by (rewrite He; discriminate).
  apply IH. exact Hl.
Qed.

(** Nothing outside the block of detail lines has the shape of one. *)
Lemma ghz_frame_no_detail (cfg : Ghz.config) (w : cpp_world) (shots : Z) (t : Ghz.tally) :
  filter (fun e => is_detail_line e = true) (ghz_preamble cfg w ++ report_head) = []
  /\ filter (fun e => is_detail_line e = true)
       (summary_head ++ summary_lines shots t ++ ghz_trailer) = [].
Proof.
  split; apply filter_no_detail; [|reflexivity].
  assert (forallb (fun e => negb (is_detail_line e))
            (ghz_circuit_events (Ghz.num_qubits cfg)) = true) as Hc.
  { unfold ghz_circuit_events. cbn [forallb is_detail_line negb andb].
    rewrite forallb_app.
    induction (seqZ 1 (Ghz.num_qubits cfg - 1)) as [|i l IH]; [reflexivity|exact IH]. }
  unfold ghz_preamble. rewrite !forallb_app, Hc.
  destruct (Ghz.num_qubits cfg <=? 10);
    cbn [forallb is_detail_line length Nat.eqb String.eqb Ascii.eqb Bool.eqb];
    rewrite ?andb_false_r; reflexivity.
Qed.

(** C8 (counterexample): the C program prints the line of the outcome 01
    although no sample had it (0%, not above 1%), and its output has no
    summary bucket. *)
Lemma bell_c_prints_every_outcome :
  In (Stdout (ket_line "01" 0 (Fin 0)))
    (fst (BellC.main ["bell_state_c"] (c_world [Some "0x0"; Some "0x3"])))
  /\ fgt (percent 0 2) 1 = false
  /\ existsb
       (fun e => match e with
                 | Stdout (Txt label :: _) => String.eqb label "  All 0s: "
                 | _ => false
                 end)
       (fst (BellC.main ["bell_state_c"] (c_world [Some "0x0"; Some "0x3"]))) = false.
Proof. split; [vm_compute; intuition|split; reflexivity]. Qed.

(** ** Assignment to the all-zeros and all-ones buckets *)

(** The keys 0x0 and 0 take the all-zeros branch, as the all-zeros bit
    string does. *)
Lemma zeros_reference_keys (nq : Z) :
  to_zeros nq "0x0" = true /\ to_zeros nq "0" = true
  /\ to_zeros nq (Ghz.all_zeros nq) = true.
Proof.
  unfold to_zeros, Ghz.is_zeros_key. repeat split.
  - rewrite orb_true_iff. left. rewrite orb_true_iff. right. reflexivity.
  - rewrite orb_true_iff. right. reflexivity.
  - rewrite String.eqb_refl. reflexivity.
Qed.

(** Up to 63 qubits the lowercase hexadecimal string of 2^N - 1 takes the
    all-ones branch. *)
Lemma hex_all_ones_key_small (shl : Z -> Z -> Z) (nq : Z) :
  2 <= nq <= 63 -> to_ones shl nq (hex_key (2 ^ nq - 1)) = true.
Proof.
  intros H. unfold to_ones, hex_key.
  pose proof (pow2_le_63 nq ltac:(lia)) as P.
  assert (4 <= 2 ^ nq) as P4 by (apply (Z.pow_le_mono_r 2 2 nq); lia).
  apply andb_true_iff. split.
  - apply negb_true_iff. unfold Ghz.is_zeros_key.
    rewrite !orb_false_iff. repeat split; apply String.eqb_neq.
    + apply hex_not_bitstring; [discriminate|lia].
    + change "0x0"%string with (HexString.of_N 0). intros E%hex_of_N_inj. lia.
    + destruct (hex_of_N_prefix (Z.to_N (2 ^ nq - 1))) as [rest ->]. discriminate.
  - unfold Ghz.is_ones_key. rewrite hex_ones_str_exact by lia.
    rewrite String.eqb_refl. apply orb_true_r.
Qed.

(** Each of the two buckets holds the count of the last key that took its
    branch; the counts of earlier such keys are in no bucket. *)
Lemma ghz_assignment_last_wins (shl : Z -> Z -> Z) (nq : Z) (counts : list (string * Z)) :
  Ghz.count_all_zeros (tally_of shl nq counts)
  = default 0 (last (map to_int (counts_where (to_zeros nq) counts)))
  /\ Ghz.count_all_ones (tally_of shl nq counts)
     = default 0 (last (map to_int (counts_where (to_ones shl nq) counts))).
Proof.
  unfold tally_of. rewrite fold_classify_zeros, fold_classify_ones. split; reflexivity.
Qed.

Lemma ghz_two_keys_one_pattern (shl : Z -> Z -> Z) (nq : Z) (k1 k2 : string) (n1 n2 : Z) :
  (to_zeros nq k1 = true -> to_zeros nq k2 = true ->
   tally_of shl nq [(k1, n1); (k2, n2)]
   = {| Ghz.count_all_zeros := to_int n2; Ghz.count_all_ones := 0; Ghz.count_other := 0 |})
  /\ (to_ones shl nq k1 = true -> to_ones shl nq k2 = true ->
      tally_of shl nq [(k1, n1); (k2, n2)]
      = {| Ghz.count_all_zeros := 0; Ghz.count_all_ones := to_int n2; Ghz.count_other := 0 |}).
Proof.
  unfold tally_of. cbn [fold_left]. split; intros H1 H2.
  - rewrite (classify_zeros shl nq zero_tally (k1, n1)) by exact H1.
    rewrite (classify_zeros shl nq _ (k2, n2)) by exact H2. reflexivity.
  - rewrite (classify_ones shl nq zero_tally (k1, n1)) by exact H1.
    rewrite (classify_ones shl nq _ (k2, n2)) by exact H2. reflexivity.
Qed.

(** C9 (evaluation at the failing input): for 127 qubits the lowercase
    hexadecimal string of 2^127 - 1 matches neither reference pattern under
    any behaviour of the out-of-range shift, and its count goes to the other
    bucket. *)
Theorem ghz_hex_all_ones_127_is_other :
  forall (shl : Z -> Z -> Z) (n : Z),
    hex_key (2 ^ 127 - 1) = "0x7fffffffffffffffffffffffffffffff"%string
    /\ tally_of shl 127 [(hex_key (2 ^ 127 - 1), n)]
       = {| Ghz.count_all_zeros := 0; Ghz.count_all_ones := 0;
            Ghz.count_other := to_int (0 + n) |}.
Proof.
  intros shl n. split; [reflexivity|].
  unfold tally_of. cbn [fold_left].
  apply classify_other. cbn [fst]. unfold to_other.
  apply andb_true_iff. split; apply negb_true_iff.
  - reflexivity.
  - unfold Ghz.is_ones_key. apply orb_false_iff. split.
    + reflexivity.
    + apply String.eqb_neq. intros E. symmetry in E. revert E.
      apply hex_ones_str_narrow. vm_compute. discriminate.
Qed.

(** The same on a whole run with the masked shift: five shots that all read
    all-ones, reported under the hexadecimal key, are printed as noise. *)
Example ghz_127_all_ones_reported_as_noise :
  In (Stdout (Ghz.bucket_line "  All 1s: " 0 (Fin 0)))
    (fst (Ghz.main Ghz.shl_masked ["ghz_20q"; "127"; "ibm_fez"; "5"]
            (cpp_counts [(hex_key (2 ^ 127 - 1), 5)])))
  /\ In (Stdout (Ghz.bucket_line "  Other (noise): " 5 (Fin 100)))
       (fst (Ghz.main Ghz.shl_masked ["ghz_20q"; "127"; "ibm_fez"; "5"]
               (cpp_counts [(hex_key (2 ^ 127 - 1), 5)]))).
Proof. split; vm_compute; intuition. Qed.

(** ** The Bell programs without arguments *)

Lemma prefix_emit {B : Type} (e : event) (k : unit -> prog B) (p : list event) :
  p `prefix_of` fst (k tt) -> (e :: p) `prefix_of` fst (emit e ≫= k).
Proof. intros [rest H]. rewrite bind_emit. cbn [fst]. rewrite H. exists rest. reflexivity. Qed.

Lemma fst_exec (m : prog Z) : fst (exec m) = fst m.
Proof. destruct m as [ev [a|o]]; reflexivity. Qed.

(** C10: started without arguments, the Bell programs take their built-in
    configuration (ibm_fez for C, ibm_torino for C++, 1024 shots each) and go
    on to build the circuit and to contact the service; the C++ program
    requests that backend and runs the sampler with 1024 shots. *)
Theorem bell_defaults_without_arguments :
  forall (program : string) (w : BellC.world) (w' : cpp_world),
    BellC.config [program] = ("ibm_fez"%string, 1024)
    /\ BellCpp.config [program] = ("ibm_torino"%string, 1024)
    /\ [ Stdout [Txt "Bell State Circuit Example (C API)"];
         Stdout [Txt "==================================="];
         Stdout [Txt "Backend: "; Txt "ibm_fez"];
         Stdout [Txt "Shots: "; Num 1024];
         Stdout [];
         Sdk (CircuitNew 2 2); Sdk (GateH 0); Sdk (GateCX 0 1);
         Sdk (Measure 0 0); Sdk (Measure 1 1);
         Stdout [Txt "Circuit created: H(0), CX(0,1), Measure"];
         Stdout [];
         Sdk ServiceNew ] `prefix_of` fst (BellC.main [program] w)
    /\ [ Stdout [Txt "Bell State Circuit Example"];
         Stdout [Txt "=========================="];
         Stdout [Txt "Backend: "; Txt "ibm_torino"];
         Stdout [Txt "Shots: "; Num 1024];
         Stdout [];
         Sdk (CircuitNew 2 2); Sdk (GateH 0); Sdk (GateCX 0 1); Sdk MeasureAll;
         Stdout [Txt "Circuit (QASM3):"];
         Sdk ToQasm3;
         Stdout [Txt (qasm3 w')];
         Sdk ServiceNew; Sdk (BackendGet "ibm_torino"); Sdk Transpile;
         Sdk (SamplerRun 1024) ] `prefix_of` fst (BellCpp.main [program] w').
Proof.
  intros program w w'. split; [reflexivity|split; [reflexivity|split]].
  - unfold BellC.main. rewrite fst_exec. unfold BellC.body.
    change (BellC.config [program]) with ("ibm_fez"%string, 1024).
    cbv iota beta. do 13 apply prefix_emit. apply prefix_nil.
  - unfold BellCpp.main. rewrite fst_exec. unfold BellCpp.body.
    change (BellCpp.config [program]) with ("ibm_torino"%string, 1024).
    cbv iota beta. do 16 apply prefix_emit. apply prefix_nil.
Qed.

(** * Further properties of the programs *)

(** ** Hexadecimal samples *)

(** Reading back the digits that [HexString] writes, four bits at a time. *)
Lemma digits_of_pos_bounded (n : nat) :
  forall (p : positive) (rest : string) (base : N),
    (Pos.size_nat p <= n)%nat ->
    digits 16 (Z.of_N base) (HexString.Raw.of_pos p rest)
    = digits 16 (Z.of_N match base with
                        | N0 => N.pos p
                        | Npos v => Npos (HexString.pos_hex_app v p)
                        end) rest.
Proof.
  induction n as [|n IH]; intros p rest base Hn.
  - destruct p; cbn [Pos.size_nat] in Hn; lia.
  - do 4 try destruct p as [p|p|]; destruct base as [|v];
      cbn [HexString.Raw.of_pos];
      try (rewrite IH by (cbn [Pos.size_nat] in Hn; lia));
      cbn [digits];
      repeat match goal with
             | |- context [digit_in 16 ?c] =>
                 let r := eval vm_compute in (digit_in 16 c) in
                 change (digit_in 16 c) with r
             end;
      cbv iota beta; f_equal; cbn [Z.of_N HexString.pos_hex_app]; lia.
Qed.

(** [strtol] with base 0 reads a lowercase hexadecimal key back to its
    value. *)
Lemma strtol_hex_key (v : Z) : 0 <= v <= LONG_MAX -> strtol (hex_key v) 0 = v.
Proof.
  intros H. unfold hex_key. destruct v as [|p|p]; [reflexivity| |lia].
  cbn [Z.to_N HexString.of_N]. unfold HexString.of_pos, strtol.
  change (skip_space (String "0" (String "x" (HexString.Raw.of_pos p ""))))
    with (String "0" (String "x" (HexString.Raw.of_pos p ""))).
  change (strip_sign (String "0" (String "x" (HexString.Raw.of_pos p ""))))
    with (false, String "0" (String "x" (HexString.Raw.of_pos p ""))).
  cbv iota beta.
  change (strip_prefix 0 (String "0" (String "x" (HexString.Raw.of_pos p ""))))
    with (16, HexString.Raw.of_pos p "").
  cbv iota beta.
  pose proof (digits_of_pos_bounded (Pos.size_nat p) p "" 0%N (le_n _)) as D.
  cbn [Z.of_N digits] in D. rewrite D.
  unfold LONG_MAX, LONG_MIN in *. lia.
Qed.

(** X1: in the counting loop of the C program a sample that is the
    lowercase hexadecimal text 0x... of a value v between 0 and LONG_MAX is
    judged by (int) v: it increments counter (int) v when that is between 0
    and 3 and changes no counter otherwise.  So 0x0 to 0x3 are counted under
    their value, and so is every value that differs from one of them by a
    multiple of 2^32. *)
Theorem bell_c_hex_sample :
  forall (counts : list Z) (v : Z),
    0 <= v <= LONG_MAX ->
    BellC.count_sample counts (Some (hex_key v))
    = if (0 <=? to_int v) && (to_int v <? 4)
      then <[Z.to_nat (to_int v) := to_int (counts !!! Z.to_nat (to_int v) + 1)]> counts
      else counts.
Proof.
  intros counts v H. unfold BellC.count_sample.
  rewrite strtol_hex_key by exact H. reflexivity.
Qed.

Lemma bell_c_hex_sample_witness :
  BellC.count_sample [5; 0; 0; 7] (Some (hex_key 3))
  = (if (0 <=? to_int 3) && (to_int 3 <? 4)
     then <[Z.to_nat (to_int 3) := to_int ([5; 0; 0; 7] !!! Z.to_nat (to_int 3) + 1)]>
            [5; 0; 0; 7]
     else [5; 0; 0; 7]).
Proof.
  apply (bell_c_hex_sample [5; 0; 0; 7] 3). unfold LONG_MAX. lia.
Defined.

(** ** The four counters of the C program *)

Lemma occurrences_cons (v : Z) (s : option string) (samples : list (option string)) :
  occurrences v (s :: samples)
  = (if decide (sample_value s = Some v) then 1 else 0) + occurrences v samples.
Proof.
  unfold occurrences. rewrite filter_cons.
  destruct (decide (sample_value s = Some v)); cbn [length]; lia.
Qed.

Lemma occurrences_app (v : Z) (l1 l2 : list (option string)) :
  occurrences v (l1 ++ l2) = occurrences v l1 + occurrences v l2.
Proof. unfold occurrences. rewrite filter_app, length_app. lia. Qed.

Lemma sample_value_range (s : option string) (v : Z) :
  sample_value s = Some v -> v = 0 \/ v = 1 \/ v = 2 \/ v = 3.
Proof.
  destruct s as [str|]; [|discriminate]. unfold sample_value.
  destruct ((0 <=? to_int (strtol str 0)) && (to_int (strtol str 0) <? 4)) eqn:R;
    [|discriminate].
  intros [= <-]. apply andb_true_iff in R as [R0 R4].
  apply Z.leb_le in R0. apply Z.ltb_lt in R4. lia.
Qed.

Lemma count_sample_cases (a b c d : Z) (sample : option string) :
  BellC.count_sample [a; b; c; d] sample =
  match sample_value sample with
  | Some 0 => [to_int (a + 1); b; c; d]
  | Some 1 => [a; to_int (b + 1); c; d]
  | Some 2 => [a; b; to_int (c + 1); d]
  | Some 3 => [a; b; c; to_int (d + 1)]
  | _ => [a; b; c; d]
  end.
Proof.
  destruct (sample_value sample) as [v|] eqn:E.
  - destruct sample as [s|]; [|discriminate].
    pose proof (sample_value_range _ _ E) as Hv.
    unfold sample_value in E. unfold BellC.count_sample.
    destruct ((0 <=? to_int (strtol s 0)) && (to_int (strtol s 0) <? 4));
      [|discriminate].
    injection E as E. rewrite E.
    destruct Hv as [Hv|[Hv|[Hv|Hv]]]; rewrite Hv; reflexivity.
  - destruct sample as [s|]; [|reflexivity].
    unfold sample_value in E. unfold BellC.count_sample.
    destruct ((0 <=? to_int (strtol s 0)) && (to_int (strtol s 0) <? 4));
      [discriminate|reflexivity].
Qed.

Lemma fold_count_sample_each (samples : list (option string)) :
  forall a b c d : Z,
    0 <= a -> 0 <= b -> 0 <= c -> 0 <= d ->
    a + Z.of_nat (length samples) <= INT_MAX ->
    b + Z.of_nat (length samples) <= INT_MAX ->
    c + Z.of_nat (length samples) <= INT_MAX ->
    d + Z.of_nat (length samples) <= INT_MAX ->
    fold_left BellC.count_sample samples [a; b; c; d]
    = [a + occurrences 0 samples; b + occurrences 1 samples;
       c + occurrences 2 samples; d + occurrences 3 samples].
Proof.
  induction samples as [|s rest IH]; intros a b c d Ha Hb Hc Hd La Lb Lc Ld.
  - unfold occurrences. rewrite !filter_nil. cbn [fold_left length].
    repeat (apply f_equal2; [lia|]); reflexivity.
  - cbn [fold_left]. rewrite length_cons, Nat2Z.inj_succ in La, Lb, Lc, Ld.
    rewrite count_sample_cases, !occurrences_cons.
    assert (forall x, 0 <= x -> x + 1 <= INT_MAX -> to_int (x + 1) = x + 1) as Hi.
    { intros x ? ?. apply to_int_small. unfold in_int, INT_MIN, INT_MAX in *. lia. }
    destruct (sample_value s) as [v|] eqn:E.
    + destruct (sample_value_range _ _ E) as [Hv|[Hv|[Hv|Hv]]]; subst v;
        cbv iota; rewrite Hi by lia; (rewrite IH; [|lia..]);
        repeat case_decide; try congruence;
        repeat (apply f_equal2; [lia|]); reflexivity.
    + rewrite IH by lia.
      repeat case_decide; try congruence.
      repeat (apply f_equal2; [lia|]); reflexivity.
Qed.

Lemma tabulate_occurrences (samples : list (option string)) :
  Z.of_nat (length samples) <= INT_MAX ->
  BellC.tabulate samples
  = [occurrences 0 samples; occurrences 1 samples;
     occurrences 2 samples; occurrences 3 samples].
Proof.
  intros H. unfold BellC.tabulate. rewrite fold_count_sample_each by lia.
  reflexivity.
Qed.

(** X2: when the number of samples fits in int, the counting loop of the C
    program leaves in counts[v], for v = 0..3, the number of samples that
    are non-null and whose text [strtol] with base 0 converts to v (after
    the conversion to int); nothing else is counted. *)
Theorem bell_c_counters_count_occurrences :
  forall samples : list (option string),
    Z.of_nat (length samples) <= INT_MAX ->
    BellC.tabulate samples
    = [occurrences 0 samples; occurrences 1 samples;
       occurrences 2 samples; occurrences 3 samples]
    /\ occurrences 0 samples + occurrences 1 samples
       + occurrences 2 samples + occurrences 3 samples
       <= Z.of_nat (length samples).
Proof.
  intros samples H. split; [apply tabulate_occurrences; exact H|].
  clear H. induction samples as [|s rest IH].
  - unfold occurrences. rewrite !filter_nil. cbn [length]. lia.
  - rewrite !occurrences_cons, length_cons, Nat2Z.inj_succ.
    repeat case_decide; try congruence; lia.
Qed.

Lemma bell_c_counters_count_occurrences_witness :
  BellC.tabulate [Some "0x0"; Some "0x3"; None; Some "3"; Some "0x7"]
  = [occurrences 0 [Some "0x0"; Some "0x3"; None; Some "3"; Some "0x7"];
     occurrences 1 [Some "0x0"; Some "0x3"; None; Some "3"; Some "0x7"];
     occurrences 2 [Some "0x0"; Some "0x3"; None; Some "3"; Some "0x7"];
     occurrences 3 [Some "0x0"; Some "0x3"; None; Some "3"; Some "0x7"]]
  /\ occurrences 0 [Some "0x0"; Some "0x3"; None; Some "3"; Some "0x7"]
     + occurrences 1 [Some "0x0"; Some "0x3"; None; Some "3"; Some "0x7"]
     + occurrences 2 [Some "0x0"; Some "0x3"; None; Some "3"; Some "0x7"]
     + occurrences 3 [Some "0x0"; Some "0x3"; None; Some "3"; Some "0x7"]
     <= Z.of_nat (length [Some "0x0"; Some "0x3"; None; Some "3"; Some "0x7"]).
Proof.
  apply (bell_c_counters_count_occurrences
           [Some "0x0"; Some "0x3"; None; Some "3"; Some "0x7"]).
  vm_compute. discriminate.
Defined.

(** X3: counting two batches of samples one after the other gives, counter
    by counter, the sum of the counts of each batch (while the total number
    of samples fits in int). *)
Theorem bell_c_tabulate_app :
  forall l1 l2 : list (option string),
    Z.of_nat (length (l1 ++ l2)) <= INT_MAX ->
    BellC.tabulate (l1 ++ l2)
    = zip_with Z.add (BellC.tabulate l1) (BellC.tabulate l2).
Proof.
  intros l1 l2 H. rewrite (tabulate_occurrences (l1 ++ l2)) by exact H.
  rewrite length_app in H.
  rewrite !tabulate_occurrences by lia. rewrite !occurrences_app. reflexivity.
Qed.

Lemma bell_c_tabulate_app_witness :
  BellC.tabulate ([Some "0x0"; Some "0x3"] ++ [None; Some "0x3"; Some "0x1"])
  = zip_with Z.add (BellC.tabulate [Some "0x0"; Some "0x3"])
      (BellC.tabulate [None; Some "0x3"; Some "0x1"]).
Proof.
  apply (bell_c_tabulate_app [Some "0x0"; Some "0x3"] [None; Some "0x3"; Some "0x1"]).
  vm_compute. discriminate.
Defined.


(** ** The polling loop of the C program *)

Lemma fst_bind {A B : Type} (m : prog A) (k : A -> prog B) :
  fst (m ≫= k) = fst m ++ match snd m with Next a => fst (k a) | Halt _ => [] end.
Proof.
  destruct m as [ev [a|o]]; unfold mbind, prog_bind; cbn [fst snd].
  - destruct (k a); reflexivity.
  - rewrite app_nil_r. reflexivity.
Qed.

Lemma snd_bind {A B : Type} (m : prog A) (k : A -> prog B) :
  snd (m ≫= k) = match snd m with Next a => snd (k a) | Halt o => Halt o end.
Proof.
  destruct m as [ev [a|o]]; unfold mbind, prog_bind; cbn [fst snd];
    [destruct (k a)|]; reflexivity.
Qed.

(** One pass through the body of the do-while loop. *)
Lemma poll_step (res status : Z) (ps : list (Z * Z)) :
  BellC.poll ((res, status) :: ps) =
  if negb (res =? 0) then (poll_failure res, Halt (Exit res))
  else if (status =? 0) || (status =? 1)
       then (poll_round (res, status) ++ fst (BellC.poll ps), snd (BellC.poll ps))
       else (poll_round (res, status), Next status).
Proof.
  cbn [BellC.poll]. destruct (res =? 0); cbn [negb]; [|reflexivity].
  destruct ((status =? 0) || (status =? 1));
    [destruct (BellC.poll ps) as [ev [a|o]]|]; reflexivity.
Qed.

Lemma poll_pending (pend : list (Z * Z)) (ps : list (Z * Z)) :
  forallb pending pend = true ->
  BellC.poll (pend ++ ps)
  = (flat_map poll_round pend ++ fst (BellC.poll ps), snd (BellC.poll ps)).
Proof.
  induction pend as [|[res status] pend IH]; intros H.
  - cbn [app flat_map]. destruct (BellC.poll ps); reflexivity.
  - cbn [forallb] in H. apply andb_true_iff in H as [Hp H].
    unfold pending in Hp. cbn [fst snd] in Hp. apply andb_true_iff in Hp as [Hr Hs].
    cbn [app]. rewrite poll_step, Hr, Hs. cbn [negb].
    rewrite IH by exact H. cbn [fst snd flat_map]. rewrite <- app_assoc. reflexivity.
Qed.

(** X5: the polling loop of the C program goes round while the status
    query succeeds with status 0 or 1, each time printing the polling line,
    sleeping 10 seconds, querying and printing the status.  It stops at the
    first other answer: a successful query with any other status ends the
    loop with that status (whether the job succeeded or not), a failed query
    prints the error with its code and makes that code the result of the
    program.  Later answers are not asked for. *)
Theorem bell_c_poll_until_done :
  forall (pend rest : list (Z * Z)) (res status : Z),
    forallb pending pend = true ->
    pending (res, status) = false ->
    BellC.poll (pend ++ (res, status) :: rest)
    = if res =? 0
      then (flat_map poll_round (pend ++ [(res, status)]), Next status)
      else (flat_map poll_round pend ++ poll_failure res, Halt (Exit res)).
Proof.
  intros pend rest res status Hp Hd.
  rewrite poll_pending by exact Hp. rewrite poll_step.
  unfold pending in Hd. cbn [fst snd] in Hd.
  destruct (res =? 0) eqn:Hr; cbn [negb andb] in *.
  - rewrite Hd. cbn [fst snd]. rewrite flat_map_app. cbn [flat_map].
    rewrite app_nil_r. reflexivity.
  - reflexivity.
Qed.

Lemma bell_c_poll_until_done_witness :
  BellC.poll ([(0, 0); (0, 1); (0, 1)] ++ (0, 5) :: [(0, 2)])
  = (flat_map poll_round ([(0, 0); (0, 1); (0, 1)] ++ [(0, 5)]), Next 5)
  /\ BellC.poll ([(0, 0)] ++ (7, 0) :: [(0, 2)])
     = (flat_map poll_round [(0, 0)] ++ poll_failure 7, Halt (Exit 7)).
Proof.
  split.
  - apply (bell_c_poll_until_done [(0, 0); (0, 1); (0, 1)] [(0, 2)] 0 5); reflexivity.
  - apply (bell_c_poll_until_done [(0, 0)] [(0, 2)] 7 0); reflexivity.
Defined.

(** How the polling loop ends: decided by the first answer that is not
    "query succeeded, job queued or running". *)
Lemma poll_end (ps : list (Z * Z)) :
  snd (BellC.poll ps) =
  match find final ps with
  | Some (res, status) => if res =? 0 then Next status else Halt (Exit res)
  | None => Halt Waiting
  end.
Proof.
  induction ps as [|[res status] ps IH]; [reflexivity|].
  rewrite poll_step. cbn [find]. unfold final at 1, pending. cbn [fst snd].
  destruct (res =? 0) eqn:E; cbn [negb andb]; [|rewrite E; reflexivity].
  destruct ((status =? 0) || (status =? 1)); cbn [negb snd];
    [exact IH|rewrite E; reflexivity].
Qed.

(** ** Exit status of the C program *)

Lemma snd_emit_bind {B : Type} (e : event) (k : unit -> prog B) :
  snd (emit e ≫= k) = snd (k tt).
Proof. rewrite bind_emit. reflexivity. Qed.

Lemma snd_fail_if_bind {B : Type} (c : bool) (msg : list piece) (code : Z)
    (k : unit -> prog B) :
  snd (fail_if c msg code ≫= k) = if c then Halt (Exit code) else snd (k tt).
Proof. destruct c; [reflexivity|]. unfold fail_if. rewrite bind_ret. reflexivity. Qed.

Lemma for_each_emits {A : Type} (e : A -> event) (l : list A) :
  for_each (fun x => emit (e x)) l = (map e l, Next tt).
Proof.
  induction l as [|x l IH]; [reflexivity|].
  change (for_each (fun x => emit (e x)) (x :: l))
    with (emit (e x) ≫= fun _ => for_each (fun x => emit (e x)) l).
  rewrite bind_emit, IH. reflexivity.
Qed.

Lemma snd_for_each_bind {A B : Type} (e : A -> event) (l : list A)
    (k : unit -> prog B) :
  snd (for_each (fun x => emit (e x)) l ≫= k) = snd (k tt).
Proof. rewrite for_each_emits, bind_next. reflexivity. Qed.

Lemma snd_exec (m : prog Z) :
  snd (exec m) = match snd m with Next code => Exit code | Halt o => o end.
Proof. destruct m as [ev [c|o]]; reflexivity. Qed.

Ltac outcome_step :=
  repeat first [ rewrite snd_emit_bind | rewrite snd_fail_if_bind
               | rewrite snd_for_each_bind ].

Ltac backend_lookup name w :=
  destruct (find (String.eqb name) (BellC.backends w)) as [?b|];
    [rewrite (bool_decide_false (Some b = None)) by congruence;
     rewrite (bool_decide_true (Some b <> None)) by congruence
    |rewrite (bool_decide_true (None = None)) by reflexivity;
     rewrite (bool_decide_false (None <> None)) by congruence; reflexivity].

(** Outcome of the C program, test by test.  [res] is still the 0 of the
    backend search when the backend, the target or the transpilation
    fails. *)
Lemma bell_c_body_outcome (argv : list string) (w : BellC.world) :
  snd (BellC.body argv w) =
  if negb (BellC.service_res w =? 0) then Halt (Exit (BellC.service_res w))
  else if negb (BellC.search_res w =? 0) then Halt (Exit (BellC.search_res w))
  else if negb (backend_known argv w) then Halt (Exit (BellC.search_res w))
  else if negb (BellC.target_found w) then Halt (Exit (BellC.search_res w))
  else if negb (BellC.transpile_code w =? 0) then Halt (Exit (BellC.search_res w))
  else if negb (BellC.job_run_res w =? 0) then Halt (Exit (BellC.job_run_res w))
  else match snd (BellC.poll (BellC.polls w)) with
       | Halt o => Halt o
       | Next _ =>
           if negb (BellC.results_res w =? 0)
           then Halt (Exit (BellC.results_res w))
           else Next (BellC.results_res w)
       end.
Proof.
  unfold backend_known. unfold BellC.body.
  destruct (BellC.config argv) as [backend_name num_shots]. cbn [fst].
  cbv zeta. unfold out, call.
  outcome_step.
  destruct (negb (BellC.service_res w =? 0)); [reflexivity|].
  destruct (negb (BellC.search_res w =? 0)); [reflexivity|].
  backend_lookup backend_name w.
  cbn [negb]. outcome_step.
  destruct (negb (BellC.target_found w)); [reflexivity|].
  outcome_step.
  destruct (negb (BellC.transpile_code w =? 0)); [reflexivity|].
  outcome_step.
  destruct (negb (BellC.job_run_res w =? 0)); [reflexivity|].
  outcome_step.
  rewrite snd_bind.
  destruct (snd (BellC.poll (BellC.polls w))) as [status|o]; [|reflexivity].
  outcome_step.
  destruct (negb (BellC.results_res w =? 0)); [reflexivity|].
  outcome_step.
  reflexivity.
Qed.

Lemma completes_iff {A : Type} (m : prog A) (a : A) :
  (exists evs, completes m evs a) <-> snd m = Next a.
Proof.
  unfold completes. split.
  - intros [evs ->]. reflexivity.
  - intros H. exists (fst m). destruct m as [ev r]. cbn in H. subst r. reflexivity.
Qed.

Lemma bell_c_outcome (argv : list string) (w : BellC.world) :
  snd (BellC.main argv w) =
  match snd (BellC.body argv w) with Next code => Exit code | Halt o => o end.
Proof. unfold BellC.main. apply snd_exec. Qed.

(** X6: the C program reaches its last statement (the report and the
    two closing lines) exactly when the service, the backend search, the
    lookup of the requested backend, the target, the transpilation, the job
    submission, every status query up to and including the first one whose
    status is neither 0 nor 1, and the fetch of the results all succeed; it
    then returns 0.  The final status is not inspected: any value other than
    0 and 1 counts as completion. *)
Theorem bell_c_completes_iff :
  forall (argv : list string) (w : BellC.world) (code : Z),
    (exists evs, completes (BellC.body argv w) evs code)
    <-> (BellC.service_res w = 0
         /\ BellC.search_res w = 0
         /\ backend_known argv w = true
         /\ BellC.target_found w = true
         /\ BellC.transpile_code w = 0
         /\ BellC.job_run_res w = 0
         /\ (exists status, find final (BellC.polls w) = Some (0, status))
         /\ BellC.results_res w = 0
         /\ code = 0).
Proof.
  intros argv w code. rewrite completes_iff, bell_c_body_outcome, poll_end.
  destruct (Z.eqb_spec (BellC.service_res w) 0) as [E1|E1]; cbn [negb];
    [|split; [discriminate|tauto]].
  destruct (Z.eqb_spec (BellC.search_res w) 0) as [E2|E2]; cbn [negb];
    [|split; [discriminate|tauto]].
  destruct (backend_known argv w); cbn [negb];
    [|split; [discriminate|intros (_ & _ & H & _); discriminate H]].
  destruct (BellC.target_found w); cbn [negb];
    [|split; [discriminate|intros (_ & _ & _ & H & _); discriminate H]].
  destruct (Z.eqb_spec (BellC.transpile_code w) 0) as [E5|E5]; cbn [negb];
    [|split; [discriminate|tauto]].
  destruct (Z.eqb_spec (BellC.job_run_res w) 0) as [E6|E6]; cbn [negb];
    [|split; [discriminate|tauto]].
  destruct (find final (BellC.polls w)) as [[res status]|];
    [|split; [discriminate|intros (_ & _ & _ & _ & _ & _ & [s H] & _); discriminate H]].
  destruct (Z.eqb_spec res 0) as [E7|E7];
    [|split; [discriminate
             |intros (_ & _ & _ & _ & _ & _ & [s H] & _); congruence]].
  subst res.
  destruct (Z.eqb_spec (BellC.results_res w) 0) as [E8|E8]; cbn [negb];
    [|split; [discriminate|tauto]].
  split.
  - intros [= <-]. repeat split; eauto.
  - intros (_ & _ & _ & _ & _ & _ & _ & _ & ->). rewrite E8. reflexivity.
Qed.

(** X8: a non-zero exit status of the C program is always a code that a
    call of the runtime API returned: that of the service, of the backend
    search, of the job submission, of the results, or of a status query. *)
Theorem bell_c_nonzero_status_is_sdk_code :
  forall (argv : list string) (w : BellC.world) (c : Z),
    snd (BellC.main argv w) = Exit c ->
    c <> 0 ->
    In c ([BellC.service_res w; BellC.search_res w; BellC.job_run_res w;
           BellC.results_res w] ++ map fst (BellC.polls w)).
Proof.
  intros argv w c H Hc. rewrite bell_c_outcome, bell_c_body_outcome, poll_end in H.
  destruct (Z.eqb_spec (BellC.service_res w) 0) as [E1|E1]; cbn [negb] in H;
    [|injection H as <-; cbn; tauto].
  destruct (Z.eqb_spec (BellC.search_res w) 0) as [E2|E2]; cbn [negb] in H;
    [|injection H as <-; cbn; tauto].
  destruct (negb (backend_known argv w)); [congruence|].
  destruct (negb (BellC.target_found w)); [congruence|].
  destruct (negb (BellC.transpile_code w =? 0)); [congruence|].
  destruct (negb (BellC.job_run_res w =? 0)); [injection H as <-; cbn; tauto|].
  destruct (find final (BellC.polls w)) as [[res status]|] eqn:F; [|discriminate].
  destruct (Z.eqb_spec res 0) as [E7|E7].
  - destruct (negb (BellC.results_res w =? 0)); injection H as <-; cbn; tauto.
  - injection H as <-. apply in_or_app. right.
    apply find_some in F as [F _]. apply (in_map fst) in F. exact F.
Qed.

Lemma bell_c_nonzero_status_is_sdk_code_witness :
  In 7 ([BellC.service_res (c_world_no_service 7);
         BellC.search_res (c_world_no_service 7);
         BellC.job_run_res (c_world_no_service 7);
         BellC.results_res (c_world_no_service 7)]
        ++ map fst (BellC.polls (c_world_no_service 7))).
Proof.
  apply (bell_c_nonzero_status_is_sdk_code ["bell_state_c"] (c_world_no_service 7) 7);
    [reflexivity|discriminate].
Defined.

(** ** What the C program asks of the service *)

Lemma filter_emit_bind {B : Type} (p : event -> bool) (e : event) (k : unit -> prog B) :
  List.filter p (fst (emit e ≫= k))
  = (if p e then [e] else []) ++ List.filter p (fst (k tt)).
Proof. rewrite bind_emit. cbn [fst List.filter]. destruct (p e); reflexivity. Qed.

Lemma filter_fail_if_bind {B : Type} (p : event -> bool) (c : bool)
    (msg : list piece) (code : Z) (k : unit -> prog B) :
  List.filter p (fst (fail_if c msg code ≫= k))
  = if c then List.filter p [Stdout msg] else List.filter p (fst (k tt)).
Proof. destruct c; [reflexivity|]. unfold fail_if. rewrite bind_ret. reflexivity. Qed.

Lemma filter_for_each_bind {A B : Type} (p : event -> bool) (e : A -> event)
    (l : list A) (k : unit -> prog B) :
  List.filter p (fst (for_each (fun x => emit (e x)) l ≫= k))
  = List.filter p (map e l) ++ List.filter p (fst (k tt)).
Proof. rewrite for_each_emits, bind_next. cbn [fst]. apply List.filter_app. Qed.

Lemma filter_bind {A B : Type} (p : event -> bool) (m : prog A) (k : A -> prog B) :
  List.filter p (fst (m ≫= k))
  = List.filter p (fst m)
    ++ match snd m with Next a => List.filter p (fst (k a)) | Halt _ => [] end.
Proof. rewrite fst_bind, List.filter_app. destruct (snd m); reflexivity. Qed.

(** A test that no output line passes selects nothing among output lines. *)
Lemma filter_stdout_lines {A : Type} (p : event -> bool) (line : A -> list piece)
    (l : list A) :
  (forall t, p (Stdout t) = false) ->
  List.filter p (map (fun x => Stdout (line x)) l) = [].
Proof.
  intros H. induction l as [|x l IH]; [reflexivity|].
  cbn [map List.filter]. rewrite H. exact IH.
Qed.

Ltac sift :=
  repeat first [ rewrite filter_emit_bind | rewrite filter_fail_if_bind ];
  cbn [is_job_submission is_wait is_stderr app List.filter].

Ltac sift_names :=
  sift; rewrite filter_for_each_bind;
  rewrite filter_stdout_lines by reflexivity; sift.

Lemma poll_submits_nothing (ps : list (Z * Z)) :
  List.filter is_job_submission (fst (BellC.poll ps)) = [].
Proof.
  induction ps as [|[res status] ps IH]; [reflexivity|].
  rewrite poll_step. destruct (negb (res =? 0)); [reflexivity|].
  destruct ((status =? 0) || (status =? 1)); [|reflexivity].
  cbn [fst]. rewrite List.filter_app, IH. reflexivity.
Qed.

(** X9: the C program submits a job at most once, with the configured
    number of shots, and does so exactly when the service, the backend
    search, the lookup of the requested backend, the target and the
    transpilation have all succeeded. *)
Theorem bell_c_job_submission :
  forall (argv : list string) (w : BellC.world),
    List.filter is_job_submission (fst (BellC.main argv w))
    = if ready_to_submit argv w
      then [Sdk (SamplerRun (snd (BellC.config argv)))]
      else [].
Proof.
  intros argv w. unfold ready_to_submit, backend_known, BellC.main.
  rewrite fst_exec. unfold BellC.body.
  destruct (BellC.config argv) as [backend_name num_shots]. cbn [fst snd].
  cbv zeta. unfold out, call.
  sift. destruct (BellC.service_res w =? 0); cbn [negb andb]; [|reflexivity].
  sift. destruct (BellC.search_res w =? 0); cbn [negb andb]; [|reflexivity].
  sift_names. backend_lookup backend_name w.
  sift. destruct (BellC.target_found w); cbn [negb andb]; [|reflexivity].
  sift. destruct (BellC.transpile_code w =? 0); cbn [negb andb]; [|reflexivity].
  sift. f_equal.
  destruct (negb (BellC.job_run_res w =? 0)); [reflexivity|].
  sift. rewrite filter_bind, poll_submits_nothing. cbn [app].
  destruct (snd (BellC.poll (BellC.polls w))) as [status|o]; [|reflexivity].
  sift. destruct (negb (BellC.results_res w =? 0)); [reflexivity|].
  sift. rewrite for_each_emit, bind_next. cbn [fst]. rewrite List.filter_app.
  sift. reflexivity.
Qed.

Lemma poll_no_stderr (ps : list (Z * Z)) :
  List.filter is_stderr (fst (BellC.poll ps)) = [].
Proof.
  induction ps as [|[res status] ps IH]; [reflexivity|].
  rewrite poll_step. destruct (negb (res =? 0)); [reflexivity|].
  destruct ((status =? 0) || (status =? 1)); [|reflexivity].
  cbn [fst]. rewrite List.filter_app, IH. reflexivity.
Qed.

(** X10: the C program writes nothing to the error stream, whatever
    fails: every ERROR line goes to the output stream with [printf]. *)
Theorem bell_c_silent_error_stream :
  forall (argv : list string) (w : BellC.world),
    List.filter is_stderr (fst (BellC.main argv w)) = [].
Proof.
  intros argv w. unfold BellC.main.
  rewrite fst_exec. unfold BellC.body.
  destruct (BellC.config argv) as [backend_name num_shots].
  cbv zeta. unfold out, call.
  sift. destruct (negb (BellC.service_res w =? 0)); [reflexivity|].
  sift. destruct (negb (BellC.search_res w =? 0)); [reflexivity|].
  sift_names. destruct (bool_decide _); [reflexivity|].
  sift. destruct (negb (BellC.target_found w)); [reflexivity|].
  sift. destruct (negb (BellC.transpile_code w =? 0)); [reflexivity|].
  sift. destruct (negb (BellC.job_run_res w =? 0)); [reflexivity|].
  sift. rewrite filter_bind, poll_no_stderr. cbn [app].
  destruct (snd (BellC.poll (BellC.polls w))) as [status|o]; [|reflexivity].
  sift. destruct (negb (BellC.results_res w =? 0)); [reflexivity|].
  sift. rewrite for_each_emit, bind_next. cbn [fst]. rewrite List.filter_app.
  sift. reflexivity.
Qed.

Lemma poll_waits (ps : list (Z * Z)) :
  List.filter is_wait (fst (BellC.poll ps))
  = concat (replicate (rounds ps) [Sdk (Sleep 10); Sdk JobStatus]).
Proof.
  induction ps as [|[res status] ps IH]; [reflexivity|].
  rewrite poll_step. cbn [rounds]. unfold pending. cbn [fst snd].
  destruct (res =? 0); cbn [negb andb]; [|reflexivity].
  destruct ((status =? 0) || (status =? 1)); [|reflexivity].
  cbn [fst]. rewrite List.filter_app, IH. reflexivity.
Qed.

(** X11: the C program sleeps and queries the job status only after a
    successful submission, and then in strict alternation: one sleep of 10
    seconds before every status query, the first one included, once per pass
    through the polling loop. *)
Theorem bell_c_sleeps_before_each_poll :
  forall (argv : list string) (w : BellC.world),
    List.filter is_wait (fst (BellC.main argv w))
    = if ready_to_submit argv w && (BellC.job_run_res w =? 0)
      then concat (replicate (rounds (BellC.polls w)) [Sdk (Sleep 10); Sdk JobStatus])
      else [].
Proof.
  intros argv w. unfold ready_to_submit, backend_known, BellC.main.
  rewrite fst_exec. unfold BellC.body.
  destruct (BellC.config argv) as [backend_name num_shots]. cbn [fst snd].
  cbv zeta. unfold out, call.
  sift. destruct (BellC.service_res w =? 0); cbn [negb andb]; [|reflexivity].
  sift. destruct (BellC.search_res w =? 0); cbn [negb andb]; [|reflexivity].
  sift_names. backend_lookup backend_name w.
  sift. destruct (BellC.target_found w); cbn [negb andb]; [|reflexivity].
  sift. destruct (BellC.transpile_code w =? 0); cbn [negb andb]; [|reflexivity].
  sift. destruct (BellC.job_run_res w =? 0); cbn [negb]; [|reflexivity].
  sift. rewrite filter_bind, poll_waits.
  rewrite <- (app_nil_r (concat _)) at 2. f_equal.
  destruct (snd (BellC.poll (BellC.polls w))) as [status|o]; [|reflexivity].
  sift. destruct (negb (BellC.results_res w =? 0)); [reflexivity|].
  sift. rewrite for_each_emit, bind_next. cbn [fst]. rewrite List.filter_app.
  sift. reflexivity.
Qed.

(** ** Runs of the GHZ program without a job *)

Lemma ghz_null_job_run (shl : Z -> Z -> Z) (argv : list string) (w : cpp_world)
    (cfg : Ghz.config) :
  completes (Ghz.parse argv) [] cfg ->
  job_counts w = None ->
  Ghz.main shl argv w
  = (ghz_setup cfg w ++ [Stderr [Txt "Error: Failed to submit job"]], Exit (-1)).
Proof.
  intros Hp Hjob. unfold Ghz.main.
  assert (completes (Ghz.body shl argv w)
            (ghz_setup cfg w ++ [Stderr [Txt "Error: Failed to submit job"]]) (-1)) as H.
  { unfold Ghz.body, ghz_setup. rewrite <- !List.app_assoc.
    lazymatch goal with
    | |- completes _ ?l _ => change l with ([] ++ l)
    end.
    eapply completes_bind; [exact Hp|].
    cbn [app].
    do 6 apply completes_emit_then.
    eapply completes_bind; [apply build_circuit_spec|].
    do 2 apply completes_emit_then.
    eapply completes_bind; [destruct (Ghz.num_qubits cfg <=? 10); reflexivity|].
    do 4 apply completes_emit_then.
    rewrite Hjob.
    apply completes_emit_then. reflexivity. }
  unfold completes in H. rewrite H. reflexivity.
Qed.

Lemma ghz_preamble_setup (cfg : Ghz.config) (w : cpp_world) :
  ghz_preamble cfg w
  = ghz_setup cfg w
    ++ [Stdout [Txt "Job submitted. Waiting for results..."]; Sdk JobResults].
Proof. unfold ghz_preamble, ghz_setup. rewrite <- !List.app_assoc. reflexivity. Qed.

Lemma circuit_events_no (p : event -> bool) (nq : Z) :
  (forall c, p (Sdk c) = false) -> existsb p (ghz_circuit_events nq) = false.
Proof.
  intros H. unfold ghz_circuit_events. cbn [existsb]. rewrite !H, existsb_app.
  cbn [existsb orb]. rewrite H, orb_false_r.
  induction (seqZ 1 (nq - 1)) as [|i l IH]; [reflexivity|].
  cbn [map existsb]. rewrite H. exact IH.
Qed.

Lemma detail_lines_no (p : event -> bool) (shots : Z) (counts : list (string * Z)) :
  (forall l, p (Stdout l) = false) ->
  existsb p (map (detail_line shots) counts) = false.
Proof.
  intros H. induction counts as [|c l IH]; [reflexivity|].
  cbn [map existsb]. unfold detail_line at 1. rewrite H. exact IH.
Qed.

Lemma top_lines_no (p : event -> bool) (shots : Z) (counts : list (string * Z)) :
  (forall l, p (Stdout l) = false) -> existsb p (top_lines shots counts) = false.
Proof. intros H. unfold top_lines. apply detail_lines_no. exact H. Qed.

Lemma ghz_setup_no_stderr (cfg : Ghz.config) (w : cpp_world) :
  existsb is_stderr (ghz_setup cfg w) = false.
Proof.
  unfold ghz_setup. rewrite !existsb_app, circuit_events_no by reflexivity.
  destruct (Ghz.num_qubits cfg <=? 10); reflexivity.
Qed.

(** The results are not asked for before [sampler.run]. *)
Lemma ghz_setup_events (cfg : Ghz.config) (w : cpp_world) :
  ~ In (Sdk JobResults) (ghz_setup cfg w).
Proof.
  unfold ghz_setup. rewrite !in_app_iff. intros [H|[H|[H|[H|H]]]].
  - cbn [In] in H. intuition discriminate.
  - revert H. unfold ghz_circuit_events. cbn [In]. rewrite in_app_iff, in_map_iff.
    cbn [In]. intros [H|[H|[(i & H & _)|[H|[]]]]]; discriminate H.
  - cbn [In] in H. intuition discriminate.
  - destruct (Ghz.num_qubits cfg <=? 10); cbn [In] in H; intuition discriminate.
  - cbn [In] in H. intuition discriminate.
Qed.

(** X12: with a valid command line, when [sampler.run] returns a null
    job the GHZ program has printed its banner, built the circuit, contacted
    the service and run the sampler; it then writes "Error: Failed to submit
    job" to the error stream and returns -1, without asking for results and
    without a report. *)
Theorem ghz_null_job :
  forall (shl : Z -> Z -> Z) (argv : list string) (w : cpp_world) (cfg : Ghz.config),
    completes (Ghz.parse argv) [] cfg ->
    job_counts w = None ->
    Ghz.main shl argv w
    = (ghz_setup cfg w ++ [Stderr [Txt "Error: Failed to submit job"]], Exit (-1))
    /\ ~ In (Sdk JobResults) (fst (Ghz.main shl argv w)).
Proof.
  intros shl argv w cfg Hp Hjob.
  rewrite (ghz_null_job_run shl argv w cfg Hp Hjob). cbn [fst].
  split; [reflexivity|].
  intros Hin. apply in_app_or in Hin as [Hin|Hin].
  - exact (ghz_setup_events cfg w Hin).
  - cbn [In] in Hin. intuition discriminate.
Qed.

Lemma ghz_null_job_witness :
  Ghz.main Ghz.shl_masked ["ghz_20q"; "3"; "ibm_fez"] cpp_no_job
  = (ghz_setup {| Ghz.num_qubits := 3; Ghz.backend_name := "ibm_fez";
                  Ghz.num_shots := 1024 |} cpp_no_job
       ++ [Stderr [Txt "Error: Failed to submit job"]], Exit (-1))
  /\ ~ In (Sdk JobResults)
         (fst (Ghz.main Ghz.shl_masked ["ghz_20q"; "3"; "ibm_fez"] cpp_no_job)).
Proof.
  apply (ghz_null_job Ghz.shl_masked ["ghz_20q"; "3"; "ibm_fez"] cpp_no_job
           {| Ghz.num_qubits := 3; Ghz.backend_name := "ibm_fez";
              Ghz.num_shots := 1024 |});
    reflexivity.
Defined.

(** X13: the exit status of the GHZ program is 1 when fewer than two
    arguments are given or the qubit count read by [atoi] is outside 2..127,
    otherwise -1 when the sampler returned a null job and 0 when it returned
    counts; and the program writes to the error stream exactly when its
    status is not 0. *)
Theorem ghz_exit_status :
  forall (shl : Z -> Z -> Z) (argv : list string) (w : cpp_world),
    snd (Ghz.main shl argv w)
    = (if (argc argv <? 3) || (atoi (arg 1 argv) <? 2) || (127 <? atoi (arg 1 argv))
       then Exit 1
       else match job_counts w with
            | Some _ => Exit 0
            | None => Exit (-1)
            end)
    /\ (existsb is_stderr (fst (Ghz.main shl argv w)) = true
        <-> snd (Ghz.main shl argv w) <> Exit 0).
Proof.
  intros shl argv w.
  destruct (Z.ltb_spec (argc argv) 3) as [Hc|Hc]; cbn [orb].
  - rewrite (ghz_main_refused shl argv w _ _ (parse_usage argv Hc)).
    split; [reflexivity|]. split; [discriminate|reflexivity].
  - destruct (Z.ltb_spec (atoi (arg 1 argv)) 2) as [Hlo|Hlo]; cbn [orb].
    + rewrite (ghz_main_refused shl argv w _ _
                 (parse_range argv Hc (or_introl Hlo))).
      split; [reflexivity|]. split; [discriminate|reflexivity].
    + destruct (Z.ltb_spec 127 (atoi (arg 1 argv))) as [Hhi|Hhi].
      * rewrite (ghz_main_refused shl argv w _ _
                   (parse_range argv Hc (or_intror Hhi))).
        split; [reflexivity|]. split; [discriminate|reflexivity].
      * pose proof (parse_ok argv Hc (conj Hlo Hhi)) as Hp.
        destruct (job_counts w) as [counts|] eqn:Hjob.
        -- rewrite (ghz_run shl argv w _ counts Hp Hjob). cbn [fst snd].
           split; [reflexivity|]. split; [|congruence].
           intros H. exfalso. revert H. apply not_true_iff_false.
           rewrite ghz_preamble_setup. unfold ghz_report_lines.
           rewrite !existsb_app, ghz_setup_no_stderr, top_lines_no by reflexivity.
           reflexivity.
        -- rewrite (ghz_null_job_run shl argv w _ Hp Hjob). cbn [fst snd].
           split; [reflexivity|]. split; [discriminate|].
           intros _. rewrite existsb_app. cbn. apply orb_true_r.
Qed.

(** ** The circuit of the GHZ program *)

(** X14: with a valid command line the GHZ program asks for the QASM3
    text of the circuit exactly when the circuit has at most 10 qubits,
    whether or not the job is then accepted. *)
Theorem ghz_qasm_only_up_to_ten_qubits :
  forall (shl : Z -> Z -> Z) (argv : list string) (w : cpp_world) (cfg : Ghz.config),
    completes (Ghz.parse argv) [] cfg ->
    existsb is_qasm_call (fst (Ghz.main shl argv w)) = (Ghz.num_qubits cfg <=? 10).
Proof.
  intros shl argv w cfg Hp.
  assert (existsb is_qasm_call (ghz_setup cfg w) = (Ghz.num_qubits cfg <=? 10)) as S.
  { unfold ghz_setup. rewrite !existsb_app.
    assert (forall nq, existsb is_qasm_call (ghz_circuit_events nq) = false) as Nc.
    { intros nq. unfold ghz_circuit_events. cbn [existsb is_qasm_call orb].
      rewrite existsb_app. cbn [existsb is_qasm_call orb]. rewrite orb_false_r.
      induction (seqZ 1 (nq - 1)) as [|i l IH]; [reflexivity|exact IH]. }
    rewrite Nc. destruct (Ghz.num_qubits cfg <=? 10); reflexivity. }
  destruct (job_counts w) as [counts|] eqn:Hjob.
  - rewrite (ghz_run shl argv w cfg counts Hp Hjob). cbn [fst].
    rewrite ghz_preamble_setup. unfold ghz_report_lines.
    rewrite !existsb_app, S, top_lines_no by reflexivity.
    cbn. rewrite !orb_false_r. reflexivity.
  - rewrite (ghz_null_job_run shl argv w cfg Hp Hjob). cbn [fst].
    rewrite existsb_app, S. cbn. rewrite !orb_false_r. reflexivity.
Qed.

Lemma ghz_qasm_only_up_to_ten_qubits_witness :
  existsb is_qasm_call
    (fst (Ghz.main Ghz.shl_masked ["ghz_20q"; "11"; "ibm_fez"] (cpp_counts [])))
  = (Ghz.num_qubits {| Ghz.num_qubits := 11; Ghz.backend_name := "ibm_fez";
                       Ghz.num_shots := 1024 |} <=? 10).
Proof.
  apply (ghz_qasm_only_up_to_ten_qubits Ghz.shl_masked ["ghz_20q"; "11"; "ibm_fez"]
           (cpp_counts [])
           {| Ghz.num_qubits := 11; Ghz.backend_name := "ibm_fez";
              Ghz.num_shots := 1024 |}).
  reflexivity.
Defined.

Lemma cx_gates_of_circuit (nq : Z) :
  omap cx_gate (fst (Ghz.build_circuit nq))
  = map (fun i => (0, i)) (seqZ 1 (nq - 1)).
Proof.
  rewrite build_circuit_spec. cbn [fst]. unfold ghz_circuit_events.
  cbn [omap list_omap cx_gate].
  rewrite omap_app. cbn [omap list_omap cx_gate]. rewrite app_nil_r.
  induction (seqZ 1 (nq - 1)) as [|i l IH]; [reflexivity|].
  cbn [map omap list_omap cx_gate]. f_equal. exact IH.
Qed.

(** X15: for num_qubits >= 1 the circuit of the GHZ program has exactly
    num_qubits - 1 CNOT gates, no two alike; all have control 0 and every
    qubit from 1 to num_qubits - 1 is the target of one. *)
Theorem ghz_cnot_cascade :
  forall nq : Z,
    1 <= nq ->
    Z.of_nat (length (omap cx_gate (fst (Ghz.build_circuit nq)))) = nq - 1
    /\ NoDup (omap cx_gate (fst (Ghz.build_circuit nq)))
    /\ (forall c t, In (c, t) (omap cx_gate (fst (Ghz.build_circuit nq)))
                    <-> c = 0 /\ 1 <= t < nq).
Proof.
  intros nq H. rewrite cx_gates_of_circuit.
  split; [|split].
  - rewrite length_map, length_seqZ. lia.
  - apply NoDup_fmap_2; [|apply NoDup_seqZ].
    intros i j [= E]. exact E.
  - intros c t. rewrite in_map_iff. split.
    + intros (i & [= <- <-] & Hi). apply list_elem_of_In, elem_of_seqZ in Hi. lia.
    + intros (-> & Ht). exists t. split; [reflexivity|].
      apply list_elem_of_In, elem_of_seqZ. lia.
Qed.

Lemma ghz_cnot_cascade_witness :
  Z.of_nat (length (omap cx_gate (fst (Ghz.build_circuit 20)))) = 20 - 1
  /\ NoDup (omap cx_gate (fst (Ghz.build_circuit 20)))
  /\ (forall c t, In (c, t) (omap cx_gate (fst (Ghz.build_circuit 20)))
                  <-> c = 0 /\ 1 <= t < 20).
Proof. apply (ghz_cnot_cascade 20). lia. Defined.

(** ** The other bucket of the GHZ program *)

Lemma to_int_add_l (a b : Z) : to_int (to_int a + b) = to_int (a + b).
Proof.
  unfold to_int. f_equal.
  replace ((a + 2 ^ 31) mod 2 ^ 32 - 2 ^ 31 + b + 2 ^ 31)
    with ((a + 2 ^ 31) mod 2 ^ 32 + b) by lia.
  rewrite Zplus_mod_idemp_l. f_equal. lia.
Qed.

Lemma to_int_idem (a : Z) : to_int (to_int a) = to_int a.
Proof. pose proof (to_int_add_l a 0) as H. rewrite !Z.add_0_r in H. exact H. Qed.

Lemma fold_classify_other_wraps (shl : Z -> Z -> Z) (nq : Z) (counts : list (string * Z)) :
  forall t : Ghz.tally,
    to_int (Ghz.count_other t) = Ghz.count_other t ->
    Ghz.count_other (fold_left (Ghz.classify shl nq) counts t)
    = to_int (Ghz.count_other t + sumZ (counts_where (to_other shl nq) counts)).
Proof.
  induction counts as [|c rest IH]; intros t Ht.
  - cbn [fold_left]. unfold counts_where. rewrite filter_nil. cbn [map sumZ foldr].
    rewrite Z.add_0_r. symmetry. exact Ht.
  - cbn [fold_left]. rewrite counts_where_cons, sumZ_app.
    destruct (branch_cases shl nq (fst c)) as [(Hz & Ho & Hx)|[(Hz & Ho & Hx)|(Hz & Ho & Hx)]];
      rewrite Hx.
    + rewrite classify_zeros by exact Hz. rewrite IH by exact Ht.
      cbn [Ghz.count_other sumZ foldr]. reflexivity.
    + rewrite classify_ones by exact Ho. rewrite IH by exact Ht.
      cbn [Ghz.count_other sumZ foldr]. reflexivity.
    + rewrite classify_other by exact Hx.
      rewrite IH by (cbn [Ghz.count_other]; apply to_int_idem).
      cbn [Ghz.count_other sumZ foldr]. rewrite to_int_add_l. f_equal. lia.
Qed.

(** X16: whatever the counts, the other bucket of the GHZ program ends
    with the sum of the counts of all keys that match neither pattern,
    reduced to int; the additions of the loop lose nothing but the
    wrap-around of the int counter. *)
Theorem ghz_other_bucket_sum :
  forall (shl : Z -> Z -> Z) (nq : Z) (counts : list (string * Z)),
    Ghz.count_other (tally_of shl nq counts)
    = to_int (sumZ (counts_where (to_other shl nq) counts)).
Proof.
  intros shl nq counts. unfold tally_of.
  rewrite fold_classify_other_wraps by reflexivity. reflexivity.
Qed.

Lemma sumZ_counts_where_perm (p : string -> bool) (l l' : list (string * Z)) :
  l ≡ₚ l' -> sumZ (counts_where p l) = sumZ (counts_where p l').
Proof.
  induction 1 as [|c l l' _ IH|c d l|l l' l'' _ IH1 _ IH2].
  - reflexivity.
  - rewrite !counts_where_cons, !sumZ_app, IH. reflexivity.
  - rewrite !counts_where_cons, !sumZ_app. lia.
  - congruence.
Qed.

(** X17: the other bucket does not depend on the order in which the
    range-for visits the counts (unlike the all-zeros and all-ones buckets,
    which keep the count of the last matching key). *)
Theorem ghz_other_bucket_order_free :
  forall (shl : Z -> Z -> Z) (nq : Z) (counts counts' : list (string * Z)),
    counts ≡ₚ counts' ->
    Ghz.count_other (tally_of shl nq counts)
    = Ghz.count_other (tally_of shl nq counts').
Proof.
  intros shl nq counts counts' H.
  unfold tally_of. rewrite !fold_classify_other_wraps by reflexivity.
  rewrite (sumZ_counts_where_perm _ _ _ H). reflexivity.
Qed.

Lemma ghz_other_bucket_order_free_witness :
  Ghz.count_other (tally_of Ghz.shl_masked 2 [("01", 6); ("00", 500); ("10", 9)])
  = Ghz.count_other (tally_of Ghz.shl_masked 2 [("00", 500); ("01", 6); ("10", 9)]).
Proof.
  apply (ghz_other_bucket_order_free Ghz.shl_masked 2
           [("01", 6); ("00", 500); ("10", 9)] [("00", 500); ("01", 6); ("10", 9)]).
  apply perm_swap.
Defined.

(** ** The 1% test for any shot count *)

(** The comparison [percentage > 1.0] in integers, for every denominator. *)
Lemma fgt_percent_any (count denom : Z) :
  fgt (percent count denom) 1
  = if 0 <? denom then denom <? 100 * count
    else if denom =? 0 then 0 <? count
    else 100 * count <? denom.
Proof.
  destruct denom as [|p|p].
  - unfold percent, fdiv. cbn [Z.eqb Z.ltb Z.compare].
    destruct (Z.eqb_spec (100 * count) 0) as [E|E].
    + cbn [fgt]. symmetry. apply Z.ltb_ge. lia.
    + destruct (Z.ltb_spec 0 (100 * count)) as [L|L]; cbn [fgt]; symmetry.
      * apply Z.ltb_lt. lia.
      * apply Z.ltb_ge. lia.
  - change (0 <? Z.pos p) with true. cbv iota. apply fgt_percent. lia.
  - change (0 <? Z.neg p) with false. change (Z.neg p =? 0) with false. cbv iota.
    unfold percent, fdiv. cbn [Z.eqb fgt].
    rewrite Z.ltb_antisym. f_equal.
    apply eq_iff_eq_true. rewrite Qle_bool_iff, Qred_correct, Z.leb_le.
    unfold Qle, Qdiv, Qmult, Qinv, inject_Z. cbn [Qnum Qden]. lia.
Qed.

(** X18: for a key with a non-negative count the loop body of the GHZ
    program prints the detail line exactly when num_shots is positive and
    100 * count > num_shots, or num_shots is 0 and the count is positive (the
    quotient is then infinite); with a negative num_shots no detail line is
    printed. *)
Theorem ghz_detail_line_any_shots :
  forall (num_shots : Z) (c : string * Z),
    0 <= snd c ->
    Ghz.print_top num_shots c
    = (if (if 0 <? num_shots then num_shots <? 100 * snd c
           else (num_shots =? 0) && (0 <? snd c))
       then [detail_line num_shots c] else [],
       Next tt).
Proof.
  intros num_shots c Hc. unfold Ghz.print_top. cbv zeta.
  rewrite fgt_percent_any.
  destruct (Z.ltb_spec 0 num_shots) as [L|L];
    [destruct (num_shots <? 100 * snd c); reflexivity|].
  destruct (Z.eqb_spec num_shots 0) as [E|E]; cbn [andb].
  - destruct (0 <? snd c); reflexivity.
  - replace (100 * snd c <? num_shots) with false; [reflexivity|].
    symmetry. apply Z.ltb_ge. lia.
Qed.

Lemma ghz_detail_line_any_shots_witness :
  Ghz.print_top 0 ("01", 1) = ([detail_line 0 ("01", 1)], Next tt)
  /\ Ghz.print_top (-5) ("01", 1) = ([], Next tt).
Proof.
  split.
  - apply (ghz_detail_line_any_shots 0 ("01", 1)). cbn [snd]. lia.
  - apply (ghz_detail_line_any_shots (-5) ("01", 1)). cbn [snd]. lia.
Defined.

Lemma above_threshold_weight (shots : Z) (counts : list (string * Z)) :
  0 < shots ->
  Forall (fun n => 0 <= n) (map snd counts) ->
  (shots + 1) * Z.of_nat (length (filter (fun c => shots < 100 * snd c) counts))
  <= 100 * histogram_total counts.
Proof.
  intros Hs. unfold histogram_total.
  induction counts as [|c rest IH]; intros H.
  - rewrite filter_nil. cbn. lia.
  - cbn [map] in H. inversion H as [|? ? Hc Hr]; subst.
    specialize (IH Hr). rewrite filter_cons. cbn [map sumZ foldr] in *.
    fold (sumZ (map snd rest)) in *.
    destruct (decide (shots < 100 * snd c)) as [L|L].
    + rewrite length_cons, Nat2Z.inj_succ. lia.
    + lia.
Qed.

(** ** The reference patterns *)

(** X20: for 2 to 63 qubits no key matches both the all-zeros and the
    all-ones patterns, so the order of the if / else-if in the loop body
    decides nothing.  (From 64 qubits on the hexadecimal all-ones pattern may
    be any 64-bit value, 0x0 included.) *)
Theorem ghz_patterns_disjoint :
  forall (shl : Z -> Z -> Z) (nq : Z) (key : string),
    2 <= nq <= 63 ->
    Ghz.is_zeros_key nq key = true ->
    Ghz.is_ones_key shl nq key = false.
Proof.
  intros shl nq key H Hz. unfold Ghz.is_zeros_key in Hz. unfold Ghz.is_ones_key.
  pose proof (pow2_le_63 nq ltac:(lia)) as P.
  assert (4 <= 2 ^ nq) as P4 by (apply (Z.pow_le_mono_r 2 2 nq); lia).
  rewrite hex_ones_str_exact by lia.
  assert (exists k, Z.to_nat nq = Datatypes.S (Datatypes.S k)) as [k Hk].
  { destruct (Z.to_nat nq) as [|[|k]] eqn:E; [lia|lia|]. exists k. reflexivity. }
  apply orb_false_iff.
  apply orb_true_iff in Hz as [Hz|Hz]; [apply orb_true_iff in Hz as [Hz|Hz]|];
    apply String.eqb_eq in Hz; subst key; split; apply String.eqb_neq.
  - unfold Ghz.all_zeros, Ghz.all_ones. rewrite Hk, !fill_succ. discriminate.
  - intros E. symmetry in E. revert E. apply hex_not_bitstring; [discriminate|lia].
  - change "0x0"%string with (HexString.of_N 0).
    apply hex_not_bitstring; [discriminate|lia].
  - change "0x0"%string with (HexString.of_N 0). intros E%hex_of_N_inj. lia.
  - unfold Ghz.all_ones. rewrite Hk, !fill_succ. discriminate.
  - destruct (hex_of_N_prefix (Z.to_N (2 ^ nq - 1))) as [rest ->]. discriminate.
Qed.

Lemma ghz_patterns_disjoint_witness :
  Ghz.is_ones_key Ghz.shl_masked 20 "0x0" = false.
Proof.
  apply (ghz_patterns_disjoint Ghz.shl_masked 20 "0x0"); [lia|reflexivity].
Defined.

(** X21: where the shift count is taken modulo 64 (x86-64, AArch64), the
    hexadecimal all-ones pattern of the GHZ program for 64 to 127 qubits is
    the one for 64 qubits fewer: the text of 2^(num_qubits - 64) - 1, which
    for 64 qubits is 0x0. *)
Theorem ghz_masked_shift_pattern :
  forall nq : Z,
    64 <= nq <= 127 ->
    Ghz.hex_ones_str Ghz.shl_masked nq = hex_key (2 ^ (nq - 64) - 1).
Proof.
  intros nq H. unfold Ghz.hex_ones_str, hex_key. do 2 f_equal.
  unfold Ghz.hex_ones_value, Ghz.shl_ull, Ghz.shl_masked.
  replace ((0 <=? nq) && (nq <? 64)) with false
    by (symmetry; apply andb_false_iff; right; apply Z.ltb_ge; lia).
  replace (nq mod 64) with (nq - 64)
    by (apply Z.mod_unique with (q := 1); lia).
  rewrite Z.shiftl_1_l.
  pose proof (pow2_le_63 (nq - 64) ltac:(lia)) as P.
  assert (2 ^ 63 < 2 ^ 64) by (apply Z.pow_lt_mono_r; lia).
  rewrite (wrap64_small (2 ^ (nq - 64))) by lia.
  rewrite wrap64_small by lia. reflexivity.
Qed.

Lemma ghz_masked_shift_pattern_witness :
  Ghz.hex_ones_str Ghz.shl_masked 64 = hex_key (2 ^ (64 - 64) - 1).
Proof. apply (ghz_masked_shift_pattern 64). lia. Defined.

(** ** Exit status of the C++ Bell program *)

Lemma bell_cpp_null_job (argv : list string) (w : cpp_world) :
  job_counts w = None ->
  BellCpp.main argv w
  = (bell_cpp_setup (fst (BellCpp.config argv)) (snd (BellCpp.config argv)) w
       ++ [Stderr [Txt "Error: Failed to submit job"]],
     Exit (-1)).
Proof.
  intros Hjob. unfold BellCpp.main, BellCpp.body.
  destruct (BellCpp.config argv) as [backend_name num_shots]. rewrite Hjob.
  reflexivity.
Qed.

(** X22: the C++ Bell program returns 0 when the sampler returned counts
    and -1 when it returned a null job, and never 1: no command line is
    refused.  It writes to the error stream only in the second case, and in
    both it has run the sampler exactly once, with the configured number of
    shots. *)
Theorem bell_cpp_exit_status :
  forall (argv : list string) (w : cpp_world),
    snd (BellCpp.main argv w)
    = match job_counts w with Some _ => Exit 0 | None => Exit (-1) end
    /\ existsb is_stderr (fst (BellCpp.main argv w))
       = bool_decide (job_counts w = None)
    /\ List.filter is_job_submission (fst (BellCpp.main argv w))
       = [Sdk (SamplerRun (snd (BellCpp.config argv)))].
Proof.
  intros argv w. destruct (job_counts w) as [counts|] eqn:Hjob.
  - rewrite (bell_cpp_run argv w counts Hjob). cbn [fst snd].
    split; [reflexivity|]. split.
    + rewrite !existsb_app, detail_lines_no by reflexivity. reflexivity.
    + rewrite !List.filter_app.
      unfold detail_line. rewrite filter_stdout_lines by reflexivity.
      reflexivity.
  - rewrite (bell_cpp_null_job argv w Hjob). cbn [fst snd].
    split; [reflexivity|]. split; reflexivity.
Qed.

(** ** Text after a number *)

Lemma digits_app (d t : string) :
  only_digits d = true -> no_digit_at_head t ->
  forall acc, digits 10 acc (String.append d t) = digits 10 acc d.
Proof.
  intros Hd Ht. induction d as [|c d IH]; intros acc.
  - change (String.append "" t) with t. destruct t as [|c t]; [reflexivity|].
    cbn [digits]. change (digit_in 10 c = None) in Ht. rewrite Ht. reflexivity.
  - cbn [only_digits] in Hd.
    change (String.append (String c d) t) with (String c (String.append d t)).
    cbn [digits].
    destruct (digit_in 10 c) as [v|]; [|discriminate]. apply IH. exact Hd.
Qed.

Lemma decimal_digit_not_space (c : ascii) (v : Z) :
  digit_in 10 c = Some v -> isspace c = false /\ (code c =? 45) = false /\ (code c =? 43) = false.
Proof.
  unfold digit_in, digit_val, isspace.
  destruct ((48 <=? code c) && (code c <=? 57)) eqn:E1.
  - intros _. apply andb_true_iff in E1 as [A B]. apply Z.leb_le in A, B.
    repeat split.
    + apply orb_false_iff. split; [apply Z.eqb_neq; lia|].
      apply andb_false_iff. right. apply Z.leb_gt. lia.
    + apply Z.eqb_neq. lia.
    + apply Z.eqb_neq. lia.
  - destruct ((97 <=? code c) && (code c <=? 122)) eqn:E2.
    + apply andb_true_iff in E2 as [A B]. apply Z.leb_le in A, B.
      destruct (Z.ltb_spec (code c - 97 + 10) 10); [lia|discriminate].
    + destruct ((65 <=? code c) && (code c <=? 90)) eqn:E3; [|discriminate].
      apply andb_true_iff in E3 as [A B]. apply Z.leb_le in A, B.
      destruct (Z.ltb_spec (code c - 65 + 10) 10); [lia|discriminate].
Qed.

Lemma sign_not_space (c : ascii) :
  (code c =? 45) || (code c =? 43) = true -> isspace c = false.
Proof.
  intros H. unfold isspace. apply orb_true_iff in H as [H|H]; apply Z.eqb_eq in H;
    rewrite H; reflexivity.
Qed.

(** X24: [atoi], with which the three programs read their numeric
    arguments, ignores whatever follows a decimal numeral: a numeral followed
    by text that does not begin with a digit converts to the same value as
    the numeral alone. *)
Theorem atoi_ignores_trailing_text :
  forall s t : string,
    numeric s = true ->
    no_digit_at_head t ->
    atoi (String.append s t) = atoi s.
Proof.
  intros s t Hs Ht. unfold atoi, strtol. f_equal.
  unfold numeric in Hs. destruct s as [|c s]; [discriminate|].
  change (String.append (String c s) t) with (String c (String.append s t)).
  cbn [skip_space].
  assert (isspace c = false) as Hsp.
  { cbn [strip_sign] in Hs.
    destruct (code c =? 45) eqn:E45; [apply sign_not_space; rewrite E45; reflexivity|].
    destruct (code c =? 43) eqn:E43;
      [apply sign_not_space; rewrite E43; apply orb_true_r|].
    cbn [snd only_digits] in Hs.
    destruct (digit_in 10 c) as [v|] eqn:Ev; [|discriminate].
    apply (decimal_digit_not_space c v Ev). }
  rewrite Hsp. cbn [strip_sign] in Hs |- *.
  destruct (code c =? 45) eqn:E45; [|destruct (code c =? 43) eqn:E43];
    cbn [snd] in Hs; rewrite !strip_prefix_decimal.
  - destruct s as [|c' s']; [discriminate|].
    rewrite (digits_app (String c' s') t Hs Ht). reflexivity.
  - destruct s as [|c' s']; [discriminate|].
    rewrite (digits_app (String c' s') t Hs Ht). reflexivity.
  - change (String c (String.append s t)) with (String.append (String c s) t).
    rewrite (digits_app (String c s) t Hs Ht). reflexivity.
Qed.

Lemma atoi_ignores_trailing_text_witness :
  atoi (String.append "20" "abc") = atoi "20".
Proof.
  apply (atoi_ignores_trailing_text "20" "abc"); reflexivity.
Defined.

(** ** Order of the samples *)

Lemma occurrences_perm (v : Z) (l l' : list (option string)) :
  l ≡ₚ l' -> occurrences v l = occurrences v l'.
Proof.
  induction 1 as [|x l l' _ IH|x y l|l l' l'' _ IH1 _ IH2].
  - reflexivity.
  - rewrite !occurrences_cons, IH. reflexivity.
  - rewrite !occurrences_cons. lia.
  - congruence.
Qed.

(** X4: while the number of samples fits in int (so that no counter
    overflows), the four counters of the C program do not depend on the
    order in which the samples arrive. *)
Theorem bell_c_tabulate_permutation :
  forall l l' : list (option string),
    Z.of_nat (length l) <= INT_MAX ->
    l ≡ₚ l' ->
    BellC.tabulate l = BellC.tabulate l'.
Proof.
  intros l l' H P.
  rewrite (tabulate_occurrences l) by exact H.
  rewrite (tabulate_occurrences l') by (rewrite <- (Permutation_length P); exact H).
  rewrite !(occurrences_perm _ l l' P). reflexivity.
Qed.

Lemma bell_c_tabulate_permutation_witness :
  BellC.tabulate [Some "0x3"; Some "0x0"; None] = BellC.tabulate [Some "0x0"; Some "0x3"; None].
Proof.
  apply (bell_c_tabulate_permutation [Some "0x3"; Some "0x0"; None]
           [Some "0x0"; Some "0x3"; None]).
  - vm_compute. discriminate.
  - apply perm_swap.
Defined.

(** ** The usage text *)

(** X23: started with its name and at most one argument (argc is 1 or
    2), the GHZ program prints the ten lines of the usage text to the error
    stream and returns 1 before it looks at the qubit count: the range
    message is not printed even when that argument is out of range. *)
Theorem ghz_usage_comes_first :
  forall (shl : Z -> Z -> Z) (argv : list string) (w : cpp_world),
    1 <= argc argv < 3 ->
    Ghz.main shl argv w = (fst (Ghz.print_usage (arg 0 argv)), Exit 1)
    /\ length (fst (Ghz.main shl argv w)) = 10%nat
    /\ ~ In (Stderr [Txt "Error: num_qubits must be between 2 and 127"])
           (fst (Ghz.main shl argv w)).
Proof.
  intros shl argv w [_ H].
  rewrite (ghz_main_refused shl argv w _ _ (parse_usage argv H)). cbn [fst].
  split; [reflexivity|]. split; [reflexivity|].
  intros Hin. cbn in Hin. intuition discriminate.
Qed.

Lemma ghz_usage_comes_first_witness :
  Ghz.main Ghz.shl_masked ["ghz_20q"; "999"] (cpp_counts [])
  = (fst (Ghz.print_usage (arg 0 ["ghz_20q"; "999"])), Exit 1)
  /\ length (fst (Ghz.main Ghz.shl_masked ["ghz_20q"; "999"] (cpp_counts []))) = 10%nat
  /\ ~ In (Stderr [Txt "Error: num_qubits must be between 2 and 127"])
         (fst (Ghz.main Ghz.shl_masked ["ghz_20q"; "999"] (cpp_counts []))).
Proof.
  apply (ghz_usage_comes_first Ghz.shl_masked ["ghz_20q"; "999"] (cpp_counts [])).
  vm_compute. split; [discriminate|reflexivity].
Defined.

(** ** Number of detail lines of a GHZ run *)

(** The detail lines of a whole run are those of the loop. *)
Lemma ghz_run_detail_lines (shl : Z -> Z -> Z) (argv : list string) (w : cpp_world)
    (cfg : Ghz.config) (counts : list (string * Z)) :
  completes (Ghz.parse argv) [] cfg ->
  job_counts w = Some counts ->
  filter (fun e => is_detail_line e = true) (fst (Ghz.main shl argv w))
  = fst (Ghz.loop shl (Ghz.num_qubits cfg) (Ghz.num_shots cfg) counts zero_tally).
Proof.
  intros Hp Hjob. rewrite (ghz_run shl argv w cfg counts Hp Hjob), loop_spec.
  cbn [fst]. unfold ghz_report_lines.
  destruct (ghz_frame_no_detail cfg w (Ghz.num_shots cfg)
              (tally_of shl (Ghz.num_qubits cfg) counts)) as [Hpre Hpost].
  rewrite <- !List.app_assoc.
  rewrite (List.app_assoc (ghz_preamble cfg w) report_head).
  rewrite filter_app, Hpre, filter_app, Hpost.
  unfold top_lines. rewrite filter_detail_lines, app_nil_r. reflexivity.
Qed.

(** X19: in a run of the GHZ program with a positive num_shots and
    non-negative counts whose total does not exceed num_shots, the loop over
    the counts prints fewer than 100 lines, and these are all the detail
    lines of the output, however many distinct keys the histogram holds. *)
Theorem ghz_detail_lines_below_100 :
  forall (shl : Z -> Z -> Z) (argv : list string) (w : cpp_world)
         (cfg : Ghz.config) (counts : list (string * Z)),
    completes (Ghz.parse argv) [] cfg ->
    job_counts w = Some counts ->
    0 < Ghz.num_shots cfg ->
    Forall (fun n => 0 <= n) (map snd counts) ->
    histogram_total counts <= Ghz.num_shots cfg ->
    filter (fun e => is_detail_line e = true) (fst (Ghz.main shl argv w))
    = fst (Ghz.loop shl (Ghz.num_qubits cfg) (Ghz.num_shots cfg) counts zero_tally)
    /\ (length (fst (Ghz.loop shl (Ghz.num_qubits cfg) (Ghz.num_shots cfg)
                       counts zero_tally)) < 100)%nat.
Proof.
  intros shl argv w cfg counts Hp Hjob Hs Hpos Htot.
  split; [apply (ghz_run_detail_lines shl argv w cfg counts Hp Hjob)|].
  rewrite loop_spec. cbn [fst].
  rewrite top_lines_threshold by exact Hs. rewrite length_map.
  pose proof (above_threshold_weight (Ghz.num_shots cfg) counts Hs Hpos) as W.
  apply Nat2Z.inj_lt. nia.
Qed.

Lemma ghz_detail_lines_below_100_witness :
  filter (fun e => is_detail_line e = true)
    (fst (Ghz.main Ghz.shl_masked ["ghz_20q"; "2"; "ibm_fez"; "1000"]
            (cpp_counts [("00", 500); ("01", 10); ("10", 11); ("11", 479)])))
  = fst (Ghz.loop Ghz.shl_masked 2 1000
           [("00", 500); ("01", 10); ("10", 11); ("11", 479)] zero_tally)
  /\ Nat.lt
       (length (fst (Ghz.loop Ghz.shl_masked 2 1000
                       [("00", 500); ("01", 10); ("10", 11); ("11", 479)] zero_tally)))
       100.
Proof.
  apply (ghz_detail_lines_below_100 Ghz.shl_masked ["ghz_20q"; "2"; "ibm_fez"; "1000"]
           (cpp_counts [("00", 500); ("01", 10); ("10", 11); ("11", 479)])
           {| Ghz.num_qubits := 2; Ghz.backend_name := "ibm_fez"; Ghz.num_shots := 1000 |}
           [("00", 500); ("01", 10); ("10", 11); ("11", 479)]).
  - reflexivity.
  - reflexivity.
  - cbn [Ghz.num_shots]. lia.
  - cbn [map snd]. repeat (apply Forall_cons; split; [lia|]). apply Forall_nil_2.
  - vm_compute. discriminate.
Defined.

(** ** The ERROR line of a failure that leaves the status at 0 *)

Ltac sift_errors :=
  repeat first [ rewrite filter_emit_bind | rewrite filter_fail_if_bind ];
  repeat match goal with
         | |- context [is_error_line (Stdout ?l)] =>
             let r := eval vm_compute in (is_error_line (Stdout l)) in
             change (is_error_line (Stdout l)) with r
         end;
  cbn [is_error_line app List.filter negb].

(** X7: when the service and the backend search succeed but the requested
    backend is not among the results, or its target is null, or the
    transpilation fails, the C program prints the ERROR line of that failure
    (and no other), does not reach the report, and returns 0: [res] still
    holds the 0 of the last successful call. *)
Theorem bell_c_status_zero_on_local_failure :
  forall (argv : list string) (w : BellC.world),
    BellC.service_res w = 0 ->
    BellC.search_res w = 0 ->
    backend_known argv w = false
    \/ BellC.target_found w = false
    \/ BellC.transpile_code w <> 0 ->
    snd (BellC.main argv w) = Exit 0
    /\ ~ (exists evs code, completes (BellC.body argv w) evs code)
    /\ List.filter is_error_line (fst (BellC.main argv w))
       = [Stdout
            (if negb (backend_known argv w)
             then [Txt "ERROR: Backend '"; Txt (fst (BellC.config argv));
                   Txt "' not found"]
             else if negb (BellC.target_found w)
                  then [Txt "ERROR: Failed to get backend target"]
                  else [Txt "ERROR: Transpilation failed: ";
                        Txt (default "unknown error" (BellC.transpile_error w))])].
Proof.
  intros argv w E1 E2 H.
  assert (snd (BellC.body argv w) = Halt (Exit 0)) as Hb.
  { rewrite bell_c_body_outcome, E1, E2. cbn [Z.eqb negb].
    destruct (backend_known argv w); cbn [negb]; [|reflexivity].
    destruct (BellC.target_found w); cbn [negb]; [|reflexivity].
    destruct (Z.eqb_spec (BellC.transpile_code w) 0) as [E5|E5]; cbn [negb];
      [|reflexivity].
    destruct H as [H|[H|H]]; congruence. }
  split; [rewrite bell_c_outcome, Hb; reflexivity|]. split.
  - intros (evs & code & Hc). unfold completes in Hc. rewrite Hc in Hb. discriminate Hb.
  - revert H. unfold backend_known, BellC.main. rewrite fst_exec. unfold BellC.body.
    destruct (BellC.config argv) as [backend_name num_shots]. cbn [fst].
    cbv zeta. unfold out, call. rewrite E1, E2. cbn [Z.eqb negb].
    sift_errors. rewrite filter_for_each_bind.
    assert (forall l : list string,
              List.filter is_error_line
                (map (fun name => Stdout [Txt "  - "; Txt name]) l) = []) as ->
      by (intros l; induction l as [|x l IH]; [reflexivity|exact IH]).
    sift_errors.
    destruct (find (String.eqb backend_name) (BellC.backends w)) as [b|].
    + rewrite (bool_decide_false (Some b = None)) by congruence.
      rewrite (bool_decide_true (Some b <> None)) by congruence.
      sift_errors.
      destruct (BellC.target_found w); cbn [negb]; [|reflexivity].
      sift_errors.
      destruct (Z.eqb_spec (BellC.transpile_code w) 0) as [E5|E5]; cbn [negb];
        [|reflexivity].
      intros [H|[H|H]]; congruence.
    + rewrite (bool_decide_true (None = None)) by reflexivity.
      rewrite (bool_decide_false (None <> None)) by congruence.
      reflexivity.
Qed.

Lemma bell_c_status_zero_on_local_failure_witness :
  snd (BellC.main ["bell_state_c"; "ibm_nowhere"] (c_world [])) = Exit 0
  /\ ~ (exists evs code,
          completes (BellC.body ["bell_state_c"; "ibm_nowhere"] (c_world [])) evs code)
  /\ List.filter is_error_line
       (fst (BellC.main ["bell_state_c"; "ibm_nowhere"] (c_world [])))
     = [Stdout
          (if negb (backend_known ["bell_state_c"; "ibm_nowhere"] (c_world []))
           then [Txt "ERROR: Backend '";
                 Txt (fst (BellC.config ["bell_state_c"; "ibm_nowhere"]));
                 Txt "' not found"]
           else if negb (BellC.target_found (c_world []))
                then [Txt "ERROR: Failed to get backend target"]
                else [Txt "ERROR: Transpilation failed: ";
                      Txt (default "unknown error" (BellC.transpile_error (c_world [])))])].
Proof.
  apply (bell_c_status_zero_on_local_failure ["bell_state_c"; "ibm_nowhere"] (c_world []));
    [reflexivity|reflexivity|left; vm_compute; reflexivity].
Defined.

(** ** What the C program prints *)

Section QuietLines.

(** A test on events that no SDK call and no quiet line passes. *)
Variable p : event -> bool.
Hypothesis p_sdk : forall c, p (Sdk c) = false.
Hypothesis p_quiet : forall l, quiet l = true -> p (Stdout l) = false.

Ltac hush :=
  repeat first [ rewrite filter_emit_bind | rewrite filter_fail_if_bind
               | rewrite snd_emit_bind | rewrite snd_fail_if_bind ];
  cbn [app List.filter];
  rewrite ?p_sdk;
  repeat match goal with
         | |- context [p (Stdout ?l)] => rewrite (p_quiet l) by reflexivity
         end;
  cbn [app List.filter].

Lemma poll_quiet (ps : list (Z * Z)) :
  List.filter p (fst (BellC.poll ps)) = [].
Proof.
  induction ps as [|[res status] ps IH]; [reflexivity|].
  rewrite poll_step. unfold poll_failure, poll_round.
  destruct (negb (res =? 0)); [cbn [fst]; hush; reflexivity|].
  destruct ((status =? 0) || (status =? 1)); cbn [fst];
    [rewrite List.filter_app, IH|]; hush; reflexivity.
Qed.

Lemma names_quiet (l : list string) :
  List.filter p (map (fun name => Stdout [Txt "  - "; Txt name]) l) = [].
Proof.
  induction l as [|x l IH]; [reflexivity|].
  cbn [map List.filter]. rewrite p_quiet by reflexivity. exact IH.
Qed.

(** Among the events of the C program only the four outcome lines can pass
    such a test, and they are there exactly when the run reaches its last
    statement. *)
Lemma bell_c_body_filter (argv : list string) (w : BellC.world) :
  List.filter p (fst (BellC.body argv w))
  = match snd (BellC.body argv w) with
    | Next _ =>
        List.filter p
          (BellC.display (BellC.tabulate (BellC.samples w))
             (Z.of_nat (length (BellC.samples w))))
    | Halt _ => []
    end.
Proof.
  unfold BellC.body. destruct (BellC.config argv) as [backend_name num_shots].
  cbv zeta. unfold out, call.
  hush. destruct (negb (BellC.service_res w =? 0)); [reflexivity|].
  hush. destruct (negb (BellC.search_res w =? 0)); [reflexivity|].
  hush. rewrite filter_for_each_bind, snd_for_each_bind, names_quiet.
  hush. destruct (bool_decide _); [reflexivity|].
  hush. destruct (negb (BellC.target_found w)); [reflexivity|].
  hush. destruct (negb (BellC.transpile_code w =? 0)); [reflexivity|].
  hush. destruct (negb (BellC.job_run_res w =? 0)); [reflexivity|].
  hush. rewrite filter_bind, snd_bind, poll_quiet. cbn [app].
  destruct (snd (BellC.poll (BellC.polls w))) as [status|o]; [|reflexivity].
  hush. destruct (negb (BellC.results_res w =? 0)); [reflexivity|].
  hush. rewrite for_each_emit, !bind_next. cbn [fst snd].
  rewrite List.filter_app. hush. rewrite app_nil_r. reflexivity.
Qed.

End QuietLines.

Lemma tail_app_r (P : Prop) (tail pre evs : list event) :
  P /\ (exists before, evs = before ++ tail) ->
  P /\ (exists before, pre ++ evs = before ++ tail).
Proof. intros [HP [b ->]]. split; [exact HP|]. exists (pre ++ b). apply app_assoc. Qed.

Ltac peel_statement H :=
  cbv zeta in H;
  apply bind_inv in H as (? & ? & ? & _ & H & ->);
  apply tail_app_r.

(** A run of the C program that reaches its final [return] returns 0, and
    from the fetch of the results on it has printed the report and nothing
    else. *)
Lemma bell_c_report_tail (argv : list string) (w : BellC.world)
    (evs : list event) (code : Z) :
  completes (BellC.body argv w) evs code ->
  code = 0
  /\ exists before,
       evs = before
             ++ Sdk JobResults
                :: c_report (BellC.tabulate (BellC.samples w))
                     (Z.of_nat (length (BellC.samples w))).
Proof.
  unfold BellC.body. destruct (BellC.config argv) as [backend_name num_shots].
  intros H.
  repeat lazymatch type of H with
         | completes (call JobResults ≫= _) _ _ => fail
         | completes (_ ≫= _) _ _ => peel_statement H
         end.
  unfold completes, call, out in H. cbv zeta in H.
  rewrite bind_emit in H.
  destruct (BellC.results_res w =? 0) eqn:E; cbn [negb] in H.
  - unfold fail_if in H. rewrite bind_ret in H.
    rewrite !bind_emit in H. rewrite for_each_emit, bind_next in H.
    rewrite ?bind_emit in H. cbn [fst snd mret prog_ret] in H.
    injection H as <- <-. apply Z.eqb_eq in E. split; [exact E|].
    exists []. reflexivity.
  - unfold fail_if in H. rewrite bind_emit in H. discriminate H.
Qed.

(** C2 (amended): the C program skips a sample whose value, as an [int],
    is outside 0..3, and does so silently (for a number of samples that fits
    in int, so that no counter overflows): no counter changes, the samples
    before and after it are counted as if it were not there, and from the
    fetch of the results on the run prints the report and nothing else (no
    line about the sample on either stream) and returns 0.  The GHZ program
    has no range check: a key that matches neither reference pattern is
    added to the other bucket, whatever its value, and the run prints its
    report and returns 0. *)
Theorem out_of_range_sample_handling :
  (forall (pre post : list (option string)) (s : string),
      Z.of_nat (length (pre ++ Some s :: post)) <= INT_MAX ->
      to_int (strtol s 0) < 0 \/ 3 < to_int (strtol s 0) ->
      BellC.tabulate (pre ++ Some s :: post) = BellC.tabulate (pre ++ post))
  /\ (forall (argv : list string) (w : BellC.world)
             (pre post : list (option string)) (s : string)
             (evs : list event) (code : Z),
         BellC.samples w = pre ++ Some s :: post ->
         Z.of_nat (length (BellC.samples w)) <= INT_MAX ->
         to_int (strtol s 0) < 0 \/ 3 < to_int (strtol s 0) ->
         completes (BellC.body argv w) evs code ->
         code = 0
         /\ exists before,
              evs = before
                    ++ Sdk JobResults
                       :: c_report (BellC.tabulate (pre ++ post))
                            (Z.of_nat (length (pre ++ Some s :: post))))
  /\ (forall (shl : Z -> Z -> Z) (nq : Z) (t : Ghz.tally) (c : string * Z),
         to_other shl nq (fst c) = true ->
         Ghz.count_other (Ghz.classify shl nq t c) = to_int (Ghz.count_other t + snd c))
  /\ (forall (shl : Z -> Z -> Z) (argv : list string) (w : cpp_world)
             (cfg : Ghz.config) (counts : list (string * Z)),
         completes (Ghz.parse argv) [] cfg ->
         job_counts w = Some counts ->
         Ghz.main shl argv w
         = (ghz_preamble cfg w ++ ghz_report_lines shl cfg counts ++ ghz_trailer, Exit 0)
         /\ Ghz.count_other (tally_of shl (Ghz.num_qubits cfg) counts)
            = to_int (sumZ (counts_where (to_other shl (Ghz.num_qubits cfg)) counts))).
Proof.
  assert (forall (pre post : list (option string)) (s : string),
             to_int (strtol s 0) < 0 \/ 3 < to_int (strtol s 0) ->
             BellC.tabulate (pre ++ Some s :: post) = BellC.tabulate (pre ++ post)) as Hskip.
  { intros pre post s H. apply tabulate_skip. unfold valid_sample.
    apply andb_false_iff. destruct H; [left; apply Z.leb_gt|right; apply Z.ltb_ge]; lia. }
  split; [intros pre post s _; apply Hskip|]. split; [|split].
  - intros argv w pre post s evs code Hw _ Hs Hc.
    destruct (bell_c_report_tail argv w evs code Hc) as [H0 [before ->]].
    split; [exact H0|]. exists before.
    rewrite Hw, (Hskip pre post s Hs). reflexivity.
  - intros shl nq t c H. rewrite classify_other by exact H. reflexivity.
  - intros shl argv w cfg counts Hp Hjob.
    split; [apply (ghz_run shl argv w cfg counts Hp Hjob)|].
    unfold tally_of. rewrite fold_classify_other_wraps by reflexivity. reflexivity.
Qed.

Lemma out_of_range_sample_handling_witness :
  BellC.tabulate ([Some "0x0"] ++ Some "0x4" :: [Some "0x3"])
  = BellC.tabulate ([Some "0x0"] ++ [Some "0x3"])
  /\ (0 = 0
      /\ exists before,
           fst (BellC.body ["bell_state_c"] (c_world [Some "0x0"; Some "0x4"; Some "0x3"]))
           = before
             ++ Sdk JobResults
                :: c_report (BellC.tabulate ([Some "0x0"] ++ [Some "0x3"]))
                     (Z.of_nat (length ([Some "0x0"] ++ Some "0x4" :: [Some "0x3"]))))
  /\ Ghz.count_other (Ghz.classify Ghz.shl_masked 2 zero_tally ("0x4"%string, 1))
     = to_int (Ghz.count_other zero_tally + 1)
  /\ (Ghz.main Ghz.shl_masked ["ghz_20q"; "2"; "ibm_fez"] (cpp_counts [("0x4", 1)])
      = (ghz_preamble
           {| Ghz.num_qubits := 2; Ghz.backend_name := "ibm_fez"; Ghz.num_shots := 1024 |}
           (cpp_counts [("0x4", 1)])
           ++ ghz_report_lines Ghz.shl_masked
                {| Ghz.num_qubits := 2; Ghz.backend_name := "ibm_fez";
                   Ghz.num_shots := 1024 |} [("0x4", 1)]
           ++ ghz_trailer, Exit 0)
      /\ Ghz.count_other (tally_of Ghz.shl_masked 2 [("0x4", 1)])
         = to_int (sumZ (counts_where (to_other Ghz.shl_masked 2) [("0x4", 1)]))).
Proof.
  split; [|split; [|split]].
  - apply (proj1 out_of_range_sample_handling [Some "0x0"] [Some "0x3"] "0x4").
    + vm_compute. discriminate.
    + right. vm_compute. reflexivity.
  - apply (proj1 (proj2 out_of_range_sample_handling)
             ["bell_state_c"] (c_world [Some "0x0"; Some "0x4"; Some "0x3"])
             [Some "0x0"] [Some "0x3"] "0x4"
             (fst (BellC.body ["bell_state_c"]
                     (c_world [Some "0x0"; Some "0x4"; Some "0x3"]))) 0).
    + reflexivity.
    + vm_compute. discriminate.
    + right. vm_compute. reflexivity.
    + vm_compute. reflexivity.
  - apply (proj1 (proj2 (proj2 out_of_range_sample_handling))
             Ghz.shl_masked 2 zero_tally ("0x4"%string, 1)).
    vm_compute. reflexivity.
  - apply (proj2 (proj2 (proj2 out_of_range_sample_handling))
             Ghz.shl_masked ["ghz_20q"; "2"; "ibm_fez"] (cpp_counts [("0x4", 1)])
             {| Ghz.num_qubits := 2; Ghz.backend_name := "ibm_fez"; Ghz.num_shots := 1024 |}
             [("0x4", 1)]); reflexivity.
Defined.

Lemma has_percent_quiet (l : list piece) :
  quiet l = true -> has_percent (Stdout l) = false.
Proof.
  unfold quiet. intros [H _]%andb_true_iff. cbn [has_percent].
  induction l as [|x l IH]; [reflexivity|].
  cbn [forallb existsb] in *. apply andb_true_iff in H as [Hx Hl].
  apply negb_true_iff in Hx. rewrite Hx. apply IH. exact Hl.
Qed.

Lemma is_detail_line_quiet (l : list piece) :
  quiet l = true -> is_detail_line (Stdout l) = false.
Proof.
  unfold quiet. intros [_ H]%andb_true_iff. apply Nat.leb_le in H.
  destruct l as [|[o|z|x] rest]; try reflexivity.
  cbn [is_detail_line]. apply andb_false_iff. right. apply Nat.eqb_neq.
  cbn [length] in H. lia.
Qed.

Lemma is_bucket_line_quiet (l : list piece) :
  quiet l = true -> is_bucket_line (Stdout l) = false.
Proof.
  unfold quiet. intros [_ H]%andb_true_iff. apply Nat.leb_le in H.
  destruct l as [|a [|b [|c [|d l]]]].
  - reflexivity.
  - destruct a; reflexivity.
  - destruct a, b; reflexivity.
  - destruct a, b, c; reflexivity.
  - cbn [length] in H. lia.
Qed.

(** C3 (amended): the GHZ program and the C++ Bell program compute every
    percentage as 100.0 * count / num_shots with the configured shot count;
    the C Bell program divides by num_samples, the number of samples the
    service returned: the lines of its output that carry a percentage are
    the four outcome lines and no other, each against num_samples (the
    number of samples fitting in int). *)
Theorem percentage_denominators :
  (forall (shl : Z -> Z -> Z) (argv : list string) (w : cpp_world)
          (cfg : Ghz.config) (counts : list (string * Z)),
      completes (Ghz.parse argv) [] cfg ->
      job_counts w = Some counts ->
      let shots := Ghz.num_shots cfg in
      let details := top_lines shots counts in
      let buckets := summary_lines shots (tally_of shl (Ghz.num_qubits cfg) counts) in
      Ghz.main shl argv w
      = (ghz_preamble cfg w
           ++ (report_head ++ details ++ summary_head ++ buckets)
           ++ ghz_trailer,
         Exit 0)
      /\ Forall (shows_percent_of shots) (details ++ buckets))
  /\ (forall (argv : list string) (w : cpp_world) (counts : list (string * Z)),
         job_counts w = Some counts ->
         let shots := snd (BellCpp.config argv) in
         let details := map (detail_line shots) counts in
         BellCpp.main argv w
         = (bell_cpp_preamble (fst (BellCpp.config argv)) shots w
              ++ details ++ bell_cpp_trailer,
            Exit 0)
         /\ Forall (shows_percent_of shots) details)
  /\ (forall (argv : list string) (w : BellC.world) (evs : list event) (code : Z),
         Z.of_nat (length (BellC.samples w)) <= INT_MAX ->
         completes (BellC.body argv w) evs code ->
         let num_samples := Z.of_nat (length (BellC.samples w)) in
         let lines := BellC.display (BellC.tabulate (BellC.samples w)) num_samples in
         segment lines evs
         /\ Forall (shows_percent_of num_samples) lines
         /\ List.filter has_percent evs = lines)
  /\ (forall (argv : list string) (w : BellC.world),
         Z.of_nat (length (BellC.samples w)) <= INT_MAX ->
         Forall (shows_percent_of (Z.of_nat (length (BellC.samples w))))
           (List.filter has_percent (fst (BellC.main argv w)))).
Proof.
  split; [|split; [|split]].
  - intros shl argv w cfg counts Hp Hjob shots details buckets. split.
    + apply (ghz_run shl argv w cfg counts Hp Hjob).
    + apply Forall_app. split; [apply top_lines_show|apply summary_lines_show].
  - intros argv w counts Hjob shots details. split.
    + apply (bell_cpp_run argv w counts Hjob).
    + apply Forall_map, Forall_forall. intros c _. apply detail_line_shows.
  - intros argv w evs code _ Hc num_samples lines. split; [|split].
    + apply (bell_c_displays argv w evs code Hc).
    + apply display_shows.
    + pose proof (bell_c_body_filter has_percent (fun _ => eq_refl) has_percent_quiet
                    argv w) as F.
      unfold completes in Hc. rewrite Hc in F. exact F.
  - intros argv w _. unfold BellC.main. rewrite fst_exec.
    rewrite (bell_c_body_filter has_percent (fun _ => eq_refl) has_percent_quiet).
    destruct (snd (BellC.body argv w)); [apply display_shows|apply Forall_nil_2].
Qed.

Lemma percentage_denominators_witness :
  (Ghz.main Ghz.shl_masked ["ghz_20q"; "2"; "ibm_fez"] (cpp_counts [("00", 518); ("11", 506)])
   = (ghz_preamble
        {| Ghz.num_qubits := 2; Ghz.backend_name := "ibm_fez"; Ghz.num_shots := 1024 |}
        (cpp_counts [("00", 518); ("11", 506)])
        ++ (report_head
            ++ top_lines 1024 [("00", 518); ("11", 506)]
            ++ summary_head
            ++ summary_lines 1024 (tally_of Ghz.shl_masked 2 [("00", 518); ("11", 506)]))
        ++ ghz_trailer,
      Exit 0)
   /\ Forall (shows_percent_of 1024)
        (top_lines 1024 [("00", 518); ("11", 506)]
         ++ summary_lines 1024 (tally_of Ghz.shl_masked 2 [("00", 518); ("11", 506)])))
  /\ (BellCpp.main ["bell_state"] (cpp_counts [("00", 518); ("11", 506)])
      = (bell_cpp_preamble "ibm_torino" 1024 (cpp_counts [("00", 518); ("11", 506)])
           ++ map (detail_line 1024) [("00", 518); ("11", 506)]
           ++ bell_cpp_trailer,
         Exit 0)
      /\ Forall (shows_percent_of 1024)
           (map (detail_line 1024) [("00", 518); ("11", 506)]))
  /\ (segment (BellC.display (BellC.tabulate [Some "0x0"; Some "0x3"]) 2)
        (fst (BellC.body ["bell_state_c"] (c_world [Some "0x0"; Some "0x3"])))
      /\ Forall (shows_percent_of 2)
           (BellC.display (BellC.tabulate [Some "0x0"; Some "0x3"]) 2)
      /\ List.filter has_percent
           (fst (BellC.body ["bell_state_c"] (c_world [Some "0x0"; Some "0x3"])))
         = BellC.display (BellC.tabulate [Some "0x0"; Some "0x3"]) 2)
  /\ Forall (shows_percent_of (Z.of_nat (length (BellC.samples (c_world [Some "0x0"])))))
       (List.filter has_percent
          (fst (BellC.main ["bell_state_c"; "ibm_fez"; "1024"] (c_world [Some "0x0"])))).
Proof.
  split; [|split; [|split]].
  - apply (proj1 percentage_denominators Ghz.shl_masked
             ["ghz_20q"; "2"; "ibm_fez"] (cpp_counts [("00", 518); ("11", 506)])
             {| Ghz.num_qubits := 2; Ghz.backend_name := "ibm_fez"; Ghz.num_shots := 1024 |}
             [("00", 518); ("11", 506)]); reflexivity.
  - apply (proj1 (proj2 percentage_denominators)
             ["bell_state"] (cpp_counts [("00", 518); ("11", 506)])
             [("00", 518); ("11", 506)]); reflexivity.
  - apply (proj1 (proj2 (proj2 percentage_denominators))
             ["bell_state_c"] (c_world [Some "0x0"; Some "0x3"])
             (fst (BellC.body ["bell_state_c"] (c_world [Some "0x0"; Some "0x3"]))) 0).
    + vm_compute. discriminate.
    + vm_compute. reflexivity.
  - apply (proj2 (proj2 (proj2 percentage_denominators))
             ["bell_state_c"; "ibm_fez"; "1024"] (c_world [Some "0x0"])).
    vm_compute. discriminate.
Defined.

(** ** Detail lines and summary buckets, program by program *)

Lemma list_filter_detail_lines (p : event -> bool) (denom : Z)
    (counts : list (string * Z)) (b : bool) :
  (forall c, p (detail_line denom c) = b) ->
  List.filter p (map (detail_line denom) counts)
  = if b then map (detail_line denom) counts else [].
Proof.
  intros H. induction counts as [|c rest IH]; [destruct b; reflexivity|].
  cbn [map List.filter]. rewrite H, IH. destruct b; reflexivity.
Qed.

Lemma bell_cpp_frame_plain (name : string) (shots : Z) (w : cpp_world) :
  List.filter is_detail_line (bell_cpp_preamble name shots w) = []
  /\ List.filter is_bucket_line (bell_cpp_preamble name shots w) = []
  /\ List.filter is_detail_line bell_cpp_trailer = []
  /\ List.filter is_bucket_line bell_cpp_trailer = [].
Proof.
  unfold bell_cpp_preamble, bell_cpp_trailer.
  cbn [List.filter is_detail_line is_bucket_line length Nat.eqb].
  rewrite ?andb_false_r. repeat split; reflexivity.
Qed.

(** C8 (amended): in the GHZ program, for a positive shot count, the
    detail lines of the output are those of exactly the outcomes with
    100 * count > num_shots, in iteration order, between the header and the
    summary; the three summary buckets follow whatever the counts are.  The
    Bell programs apply no threshold and print no summary bucket: a run of
    the C program that reaches the report prints the four outcome lines
    whatever the counters hold (the number of samples fitting in int), a run of the C++ program prints one line per
    key of the counts. *)
Theorem detail_lines_per_program :
  (forall (shl : Z -> Z -> Z) (argv : list string) (w : cpp_world)
          (cfg : Ghz.config) (counts : list (string * Z)),
      completes (Ghz.parse argv) [] cfg ->
      job_counts w = Some counts ->
      0 < Ghz.num_shots cfg ->
      let shots := Ghz.num_shots cfg in
      let details :=
        map (detail_line shots) (filter (fun c => shots < 100 * snd c) counts) in
      let buckets := summary_lines shots (tally_of shl (Ghz.num_qubits cfg) counts) in
      Ghz.main shl argv w
      = (ghz_preamble cfg w
           ++ (report_head ++ details ++ summary_head ++ buckets)
           ++ ghz_trailer,
         Exit 0)
      /\ filter (fun e => is_detail_line e = true) (fst (Ghz.main shl argv w)) = details
      /\ forallb is_bucket_line buckets = true)
  /\ (forall (argv : list string) (w : BellC.world) (evs : list event) (code : Z),
         Z.of_nat (length (BellC.samples w)) <= INT_MAX ->
         completes (BellC.body argv w) evs code ->
         List.filter is_detail_line evs
         = BellC.display (BellC.tabulate (BellC.samples w))
             (Z.of_nat (length (BellC.samples w)))
         /\ List.filter is_bucket_line evs = [])
  /\ (forall (argv : list string) (w : cpp_world) (counts : list (string * Z)),
         job_counts w = Some counts ->
         List.filter is_detail_line (fst (BellCpp.main argv w))
         = map (detail_line (snd (BellCpp.config argv))) counts
         /\ List.filter is_bucket_line (fst (BellCpp.main argv w)) = []).
Proof.
  split; [|split].
  - intros shl argv w cfg counts Hp Hjob Hs shots details buckets.
    assert (Ghz.main shl argv w
            = (ghz_preamble cfg w
                 ++ (report_head ++ details ++ summary_head ++ buckets)
                 ++ ghz_trailer,
               Exit 0)) as Hm.
    { rewrite (ghz_run shl argv w cfg counts Hp Hjob).
      unfold ghz_report_lines. rewrite top_lines_threshold by exact Hs. reflexivity. }
    split; [exact Hm|]. split; [|reflexivity].
    rewrite Hm. cbn [fst].
    destruct (ghz_frame_no_detail cfg w shots (tally_of shl (Ghz.num_qubits cfg) counts))
      as [Hpre Hpost].
    rewrite <- !List.app_assoc.
    rewrite (List.app_assoc (ghz_preamble cfg w) report_head).
    rewrite filter_app, Hpre, filter_app.
    fold buckets in Hpost. rewrite Hpost.
    unfold details. rewrite filter_detail_lines, app_nil_r. reflexivity.
  - intros argv w evs code _ Hc. unfold completes in Hc. split.
    + pose proof (bell_c_body_filter is_detail_line (fun _ => eq_refl)
                    is_detail_line_quiet argv w) as F.
      rewrite Hc in F. exact F.
    + pose proof (bell_c_body_filter is_bucket_line (fun _ => eq_refl)
                    is_bucket_line_quiet argv w) as F.
      rewrite Hc in F. exact F.
  - intros argv w counts Hjob. rewrite (bell_cpp_run argv w counts Hjob). cbn [fst].
    destruct (bell_cpp_frame_plain (fst (BellCpp.config argv))
                (snd (BellCpp.config argv)) w) as (P1 & P2 & T1 & T2).
    rewrite !List.filter_app, P1, P2, T1, T2.
    rewrite (list_filter_detail_lines is_detail_line _ counts true) by reflexivity.
    rewrite (list_filter_detail_lines is_bucket_line _ counts false) by reflexivity.
    rewrite app_nil_r. split; reflexivity.
Qed.

Lemma detail_lines_per_program_witness :
  (Ghz.main Ghz.shl_masked ["ghz_20q"; "2"; "ibm_fez"; "1000"]
     (cpp_counts [("00", 500); ("01", 10); ("10", 11); ("11", 479)])
   = (ghz_preamble
        {| Ghz.num_qubits := 2; Ghz.backend_name := "ibm_fez"; Ghz.num_shots := 1000 |}
        (cpp_counts [("00", 500); ("01", 10); ("10", 11); ("11", 479)])
        ++ (report_head
            ++ map (detail_line 1000) [("00", 500); ("10", 11); ("11", 479)]
            ++ summary_head
            ++ summary_lines 1000
                 {| Ghz.count_all_zeros := 500; Ghz.count_all_ones := 479;
                    Ghz.count_other := 21 |})
        ++ ghz_trailer,
      Exit 0)
   /\ filter (fun e => is_detail_line e = true)
        (fst (Ghz.main Ghz.shl_masked ["ghz_20q"; "2"; "ibm_fez"; "1000"]
                (cpp_counts [("00", 500); ("01", 10); ("10", 11); ("11", 479)])))
      = map (detail_line 1000) [("00", 500); ("10", 11); ("11", 479)]
   /\ forallb is_bucket_line
        (summary_lines 1000
           {| Ghz.count_all_zeros := 500; Ghz.count_all_ones := 479;
              Ghz.count_other := 21 |}) = true)
  /\ (List.filter is_detail_line
        (fst (BellC.body ["bell_state_c"] (c_world [Some "0x0"; Some "0x3"])))
      = BellC.display (BellC.tabulate [Some "0x0"; Some "0x3"]) 2
      /\ List.filter is_bucket_line
           (fst (BellC.body ["bell_state_c"] (c_world [Some "0x0"; Some "0x3"]))) = [])
  /\ (List.filter is_detail_line
        (fst (BellCpp.main ["bell_state"] (cpp_counts [("00", 1000); ("01", 3)])))
      = map (detail_line 1024) [("00", 1000); ("01", 3)]
      /\ List.filter is_bucket_line
           (fst (BellCpp.main ["bell_state"] (cpp_counts [("00", 1000); ("01", 3)]))) = []).
Proof.
  split; [|split].
  - apply (proj1 detail_lines_per_program
             Ghz.shl_masked ["ghz_20q"; "2"; "ibm_fez"; "1000"]
             (cpp_counts [("00", 500); ("01", 10); ("10", 11); ("11", 479)])
             {| Ghz.num_qubits := 2; Ghz.backend_name := "ibm_fez"; Ghz.num_shots := 1000 |}
             [("00", 500); ("01", 10); ("10", 11); ("11", 479)]); reflexivity.
  - apply (proj1 (proj2 detail_lines_per_program)
             ["bell_state_c"] (c_world [Some "0x0"; Some "0x3"])
             (fst (BellC.body ["bell_state_c"] (c_world [Some "0x0"; Some "0x3"]))) 0).
    + vm_compute. discriminate.
    + vm_compute. reflexivity.
  - apply (proj2 (proj2 detail_lines_per_program)
             ["bell_state"] (cpp_counts [("00", 1000); ("01", 3)])
             [("00", 1000); ("01", 3)]).
    reflexivity.
Defined.
